(** * The index.db object engine of hummingbird's object server

    A shallow embedding of [objectserver/indexdbobjeng.go]: the engine's
    [New], and the object handle's [load], [Metadata], [ContentLength],
    [Exists], [SetData], [commit], [Commit], [CommitMetadata], [Delete] and
    [Close].

    Go strings and byte slices are sequences of bytes and are modelled by
    [string] (a list of 8-bit [ascii]).  [int], [int64] and [uint64] are
    modelled by [Z], with the conversions and the wrap-around written where
    the source has them.  A Go [map[string]string] is [option (gmap string
    string)], [None] being the nil map. *)

From Stdlib Require Import ZArith Lia Ascii String DecimalString.
From stdpp Require Import base option gmap strings list.

Local Open Scope Z_scope.

(** ** The parts of Go's standard library the file calls *)

Module Go.

(** The numeric value of a byte. *)
Definition byteval (c : ascii) : Z := Z.of_N (N_of_ascii c).

Definition uint8 (x : Z) : Z := x mod 2 ^ 8.
Definition uint64 (x : Z) : Z := x mod 2 ^ 64.

(** Conversion of a 64-bit pattern to the signed [int] / [int64]. *)
Definition int64 (x : Z) : Z := (x + 2 ^ 63) mod 2 ^ 64 - 2 ^ 63.

Definition MaxInt64 : Z := 2 ^ 63 - 1.
Definition MinInt64 : Z := - 2 ^ 63.

(** [len(s)] *)
Definition len (s : string) : Z := Z.of_nat (String.length s).

(** A Go map from strings to strings; [None] is the nil map. *)
Abbreviation map_string_string := (option (gmap string string)).

(** [m[k]] with the comma-ok form: the value and whether the key is there. *)
Definition index_ok (m : map_string_string) (k : string) : string * bool :=
  match m with
  | None => (EmptyString, false)
  | Some g => match g !! k with
              | Some v => (v, true)
              | None => (EmptyString, false)
              end
  end.

(** [m[k]]: the zero value when the key is missing. *)
Definition index (m : map_string_string) (k : string) : string :=
  fst (index_ok m k).

(** *** strings *)

Definition strings_HasPrefix (s pre : string) : bool := String.prefix pre s.

Definition isASCII (c : ascii) : bool := byteval c <? 128.
Definition isUpper (c : ascii) : bool := (65 <=? byteval c) && (byteval c <=? 90).

Definition lowerByte (c : ascii) : ascii :=
  if isUpper c then ascii_of_N (Z.to_N (byteval c + 32)) else c.

Fixpoint allASCII (s : string) : bool :=
  match s with
  | EmptyString => true
  | String c r => isASCII c && allASCII r
  end.

Fixpoint mapBytes (f : ascii -> ascii) (s : string) : string :=
  match s with
  | EmptyString => EmptyString
  | String c r => String (f c) (mapBytes f r)
  end.

(** [strings.ToLower]: a string of ASCII bytes is lowered byte by byte;
    any other string goes through [unicode.ToLower] rune by rune, which
    is the parameter [mapRunes]. *)
Definition strings_ToLower (mapRunes : string -> string) (s : string) : string :=
  if allASCII s then mapBytes lowerByte s else mapRunes s.

(** *** encoding/hex *)

Inductive hexError : Type :=
| InvalidByteError (c : ascii)
| ErrLength.

Definition fromHexChar (c : ascii) : option Z :=
  let v := byteval c in
  if (48 <=? v) && (v <=? 57) then Some (v - 48)
  else if (97 <=? v) && (v <=? 102) then Some (v - 97 + 10)
  else if (65 <=? v) && (v <=? 70) then Some (v - 65 + 10)
  else None.

(** [hex.Decode]: two characters a byte, stopping at the first character
    that is not a hexadecimal digit; a trailing single digit is
    [ErrLength].  The bytes decoded so far come back with the error. *)
Fixpoint hex_Decode (src : string) : list Z * option hexError :=
  match src with
  | EmptyString => ([], None)
  | String p EmptyString =>
      match fromHexChar p with
      | None => ([], Some (InvalidByteError p))
      | Some _ => ([], Some ErrLength)
      end
  | String p (String q rest) =>
      match fromHexChar p with
      | None => ([], Some (InvalidByteError p))
      | Some a =>
          match fromHexChar q with
          | None => ([], Some (InvalidByteError q))
          | Some b =>
              let '(dst, err) := hex_Decode rest in
              (Z.lor (uint8 (Z.shiftl a 4)) b :: dst, err)
          end
      end
  end.

Definition hex_DecodeString (s : string) : list Z * option hexError :=
  hex_Decode s.

(** *** strconv *)

Inductive numError : Type :=
| ErrSyntax
| ErrRange.

Definition maxUint64 : Z := 2 ^ 64 - 1.

(** The byte [c | ('x' - 'X')] of strconv's [lower]. *)
Definition lower (c : ascii) : Z := Z.lor (byteval c) 32.

(** The loop of [strconv.ParseUint(s, 10, 64)] from the accumulator [n]. *)
Fixpoint ParseUint_loop (s : string) (n : Z) : Z * option numError :=
  match s with
  | EmptyString => (n, None)
  | String c r =>
      let v := byteval c in
      let digit :=
        if (48 <=? v) && (v <=? 57) then Some (v - 48)
        else if (97 <=? lower c) && (lower c <=? 122) then Some (lower c - 97 + 10)
        else None in
      match digit with
      | None => (0, Some ErrSyntax)
      | Some d =>
          if 10 <=? d then (0, Some ErrSyntax)
          else if maxUint64 / 10 + 1 <=? n then (maxUint64, Some ErrRange)
          else
            let n10 := uint64 (n * 10) in
            let n1 := uint64 (n10 + d) in
            if (n1 <? n10) || (maxUint64 <? n1) then (maxUint64, Some ErrRange)
            else ParseUint_loop r n1
      end
  end.

Definition strconv_ParseUint (s : string) : Z * option numError :=
  match s with
  | EmptyString => (0, Some ErrSyntax)
  | _ => ParseUint_loop s 0
  end.

(** [strconv.ParseInt(s, 10, 64)] *)
Definition strconv_ParseInt (s : string) : Z * option numError :=
  match s with
  | EmptyString => (0, Some ErrSyntax)
  | String c r =>
      let '(neg, s1) :=
        if Ascii.eqb c "+" then (false, r)
        else if Ascii.eqb c "-" then (true, r)
        else (false, s) in
      let '(un, err) := strconv_ParseUint s1 in
      match err with
      | Some ErrSyntax => (0, Some ErrSyntax)
      | _ =>
          let cutoff := 2 ^ 63 in
          if negb neg && (cutoff <=? un) then (cutoff - 1, Some ErrRange)
          else if neg && (cutoff <? un) then (- cutoff, Some ErrRange)
          else (if neg then int64 (- int64 un) else int64 un, None)
      end
  end.

(** [strconv.Itoa], also what [fmt]'s [%d] prints for an [int]. *)
Definition strconv_Itoa (n : Z) : string :=
  NilZero.string_of_int (Z.to_int n).

End Go.

(** ** What the file takes from the rest of the repository *)

(** Go [error] values: the three this file makes, and those that the
    collaborators hand back, which it passes on as they are. *)
Inductive error : Type :=
| errors_New (msg : string)
| Errorf_hash_length (hsh : string) (n : Z)
| Errorf_hash_decoding (hsh : string) (cause : Go.hexError)
| foreign (msg : string).

(** A [*internal.IndexDB].  The declaration of the type is in the package
    [objectserver/internal]; the file reads the one exported field,
    [RingPartPower], and uses it in a shift count, which the Go of the
    file's time requires to be unsigned. *)
Record IndexDB : Type := {
  idbRef : N;
  RingPartPower : Z
}.

Abbreviation bytes := (list Byte.byte).

(** The collaborators: the index database and its atomic file writers,
    the clock, the helpers of [common] and of [encoding/json].  [Store] is
    the state they work on (databases, temporary and published files). *)
Class Externals : Type := {
  Store : Type;
  Writer : Type;
  Item : Type;
  Time : Type;
  WaitGroup : Type;
  idb_Lookup : IndexDB -> string -> Z -> Store ->
               (Z * bool * bytes * bytes * string * option error) * Store;
  idb_List : IndexDB -> Z -> Store -> (list Item * option error) * Store;
  idb_TempFile : IndexDB -> string -> Z -> Z -> Z -> Store ->
                 (option Writer * option error) * Store;
  idb_Commit : IndexDB -> option Writer -> string -> Z -> Z -> bool ->
               bytes -> bytes -> Store -> option error * Store;
  afw_Abandon : Writer -> Store -> option error * Store;
  time_Now : Store -> Time * Store;
  time_UnixNano : Time -> Z;
  ObjHash : Go.map_string_string -> string -> string -> string;
  MetadataHash : Go.map_string_string -> bytes;
  ParseDate : string -> Time * option error;
  CanonicalTimestampFromTime : Time -> string;
  json_Marshal : Go.map_string_string -> bytes * option error;
  json_Unmarshal : bytes -> Go.map_string_string ->
                   Go.map_string_string * option error;
  fmt_v : Item -> string;
  unicode_ToLower : string -> string
}.

(** ** The engine and the object handle *)

Definition newline : string := String (ascii_of_nat 10) EmptyString.

(** What a call comes to: a return, or a panic with its value. *)
Inductive outcome (A : Type) : Type :=
| Panics (v : string)
| Returns (a : A).
Arguments Panics {A} v.
Arguments Returns {A} a.

Record indexDBEngine : Type := {
  idbe_devicespath : string;
  idbe_hashPathPrefix : string;
  idbe_hashPathSuffix : string;
  idbe_fallocateReserve : Z;
  idbe_reclaimAge : Z;
  idbe_indexDBs : gmap string (option IndexDB)
}.

Section Engine.
Context `{X : Externals}.

Record indexDBObject : Type := {
  fallocateReserve : Z;
  reclaimAge : Z;
  asyncWG : WaitGroup;
  indexDB : IndexDB;
  hash : string;
  loaded : bool;
  timestamp : Z;
  deletion : bool;
  metadata : Go.map_string_string;
  path : string;
  atomicFileWriter : option Writer;
  fakebytes : bytes
}.

Definition set_lookup (ts : Z) (del : bool) (p : string) (o : indexDBObject) : indexDBObject :=
  {| fallocateReserve := fallocateReserve o; reclaimAge := reclaimAge o;
     asyncWG := asyncWG o; indexDB := indexDB o; hash := hash o;
     loaded := loaded o; timestamp := ts; deletion := del;
     metadata := metadata o; path := p;
     atomicFileWriter := atomicFileWriter o; fakebytes := fakebytes o |}.

Definition set_metadata (m : Go.map_string_string) (o : indexDBObject) : indexDBObject :=
  {| fallocateReserve := fallocateReserve o; reclaimAge := reclaimAge o;
     asyncWG := asyncWG o; indexDB := indexDB o; hash := hash o;
     loaded := loaded o; timestamp := timestamp o; deletion := deletion o;
     metadata := m; path := path o;
     atomicFileWriter := atomicFileWriter o; fakebytes := fakebytes o |}.

Definition set_loaded (b : bool) (o : indexDBObject) : indexDBObject :=
  {| fallocateReserve := fallocateReserve o; reclaimAge := reclaimAge o;
     asyncWG := asyncWG o; indexDB := indexDB o; hash := hash o;
     loaded := b; timestamp := timestamp o; deletion := deletion o;
     metadata := metadata o; path := path o;
     atomicFileWriter := atomicFileWriter o; fakebytes := fakebytes o |}.

Definition set_atomicFileWriter (w : option Writer) (o : indexDBObject) : indexDBObject :=
  {| fallocateReserve := fallocateReserve o; reclaimAge := reclaimAge o;
     asyncWG := asyncWG o; indexDB := indexDB o; hash := hash o;
     loaded := loaded o; timestamp := timestamp o; deletion := deletion o;
     metadata := metadata o; path := path o;
     atomicFileWriter := w; fakebytes := fakebytes o |}.

(** *** Calls to the collaborators

    A call changes the [Store]; the handle's own calls are also written
    down, in order, so that what was asked of the index database can be
    stated. *)
Inductive Call : Type :=
| CNow
| CLookup (db : IndexDB) (hsh : string) (shard : Z)
| CList (db : IndexDB) (part : Z)
| CTempFile (db : IndexDB) (hsh : string) (shard token size : Z) (got : option Writer)
| CCommit (db : IndexDB) (w : option Writer) (hsh : string) (shard ts : Z)
          (del : bool) (metahash metabytes : bytes)
| CAbandon (w : Writer).

Record World : Type := {
  store : Store;
  calls : list Call
}.

Definition M (A : Type) : Type := World -> A * World.

#[global] Instance M_ret : MRet M := fun A a w => (a, w).
#[global] Instance M_bind : MBind M :=
  fun A B k m w => let '(a, w1) := m w in k a w1.

Definition extern {A : Type} (f : Store -> A * Store) (c : A -> Call) : M A :=
  fun w => let '(a, s) := f (store w) in
           (a, {| store := s; calls := calls w ++ [c a] |}).

Definition Now : M Time := extern time_Now (fun _ => CNow).

Definition Lookup (db : IndexDB) (hsh : string) (shard : Z) :=
  extern (idb_Lookup db hsh shard) (fun _ => CLookup db hsh shard).

Definition List (db : IndexDB) (part : Z) :=
  extern (idb_List db part) (fun _ => CList db part).

Definition TempFile (db : IndexDB) (hsh : string) (shard token size : Z) :=
  extern (idb_TempFile db hsh shard token size)
         (fun r => CTempFile db hsh shard token size (fst r)).

Definition IndexDB_Commit (db : IndexDB) (w : option Writer) (hsh : string)
    (shard ts : Z) (del : bool) (metahash metabytes : bytes) :=
  extern (idb_Commit db w hsh shard ts del metahash metabytes)
         (fun _ => CCommit db w hsh shard ts del metahash metabytes).

Definition Abandon (w : Writer) := extern (afw_Abandon w) (fun _ => CAbandon w).

(** [x != nil] for a pointer or interface value *)
Definition notNil {A : Type} (x : option A) : bool :=
  match x with
  | Some _ => true
  | None => false
  end.

(** *** [indexDBEngine.New] *)

(** Lines 132 to 140 of [New]: the ring partition of the lowered hash
    [hsh].  [inr] is the returned error. *)
Definition ringPartOf (indexDB : IndexDB) (hsh : string) : outcome (Z + error) :=
  if negb (Go.len hsh =? 32) then
    Returns (inr (Errorf_hash_length hsh (Go.len hsh)))
  else
    let '(hashBytes, err) := Go.hex_DecodeString hsh in
    match err with
    | Some e => Returns (inr (Errorf_hash_decoding hsh e))
    | None =>
        match hashBytes !! 0%nat, hashBytes !! 1%nat,
              hashBytes !! 2%nat, hashBytes !! 3%nat with
        | Some b0, Some b1, Some b2, Some b3 =>
            let upper :=
              Z.lor (Z.lor (Z.lor (Go.uint64 (Z.shiftl b0 24))
                                  (Go.uint64 (Z.shiftl b1 16)))
                           (Go.uint64 (Z.shiftl b2 8)))
                    b3 in
            let count := Go.uint64 (32 - RingPartPower indexDB) in
            Returns (inl (Go.int64 (if 64 <=? count then 0 else Z.shiftr upper count)))
        | _, _, _, _ => Panics "index out of range"
        end
    end.

(** The listing written to the buffer: the partition, then the items. *)
Definition fakelisting (ringPart : Z) (lst : list Item) : string :=
  fold_left (fun b itm => b +:+ fmt_v itm +:+ newline) lst
            (Go.strconv_Itoa ringPart +:+ newline).



Definition New (idbe : indexDBEngine) (vars : Go.map_string_string)
    (needData : bool) (asyncWG : WaitGroup)
  : M (outcome (option indexDBObject * option error)) :=
  match default None (idbe_indexDBs idbe !! Go.index vars "device") with
  | None => mret (Panics (Go.index vars "device"))
  | Some indexDB =>
      if Go.strings_HasPrefix (Go.index vars "obj") "fakelist" then
        tm ← Now;
        let hsh := Go.strings_ToLower unicode_ToLower
                     (ObjHash vars (idbe_hashPathPrefix idbe) (idbe_hashPathSuffix idbe)) in
        match ringPartOf indexDB hsh with
        | Panics v => mret (Panics v)
        | Returns (inr e) => mret (Returns (None, Some e))
        | Returns (inl ringPart) =>
            '(lst, err) ← List indexDB ringPart;
            match err with
            | Some e => mret (Returns (None, Some e))
            | None =>
                let fakebytes := list_byte_of_string (fakelisting ringPart lst) in
                mret (Returns (Some {|
                  fallocateReserve := idbe_fallocateReserve idbe;
                  reclaimAge := idbe_reclaimAge idbe;
                  asyncWG := asyncWG;
                  indexDB := indexDB;
                  hash := hsh;
                  loaded := true;
                  timestamp := time_UnixNano tm;
                  deletion := false;
                  metadata := Some {[
                    "X-Timestamp" := CanonicalTimestampFromTime tm;
                    "Content-Length" := Go.strconv_Itoa (Z.of_nat (length fakebytes)) ]};
                  path := "fakelist";
                  atomicFileWriter := None;
                  fakebytes := fakebytes |}, None))
            end
        end
      else
        mret (Returns (Some {|
          fallocateReserve := idbe_fallocateReserve idbe;
          reclaimAge := idbe_reclaimAge idbe;
          asyncWG := asyncWG;
          indexDB := indexDB;
          hash := ObjHash vars (idbe_hashPathPrefix idbe) (idbe_hashPathSuffix idbe);
          loaded := false;
          timestamp := 0;
          deletion := false;
          metadata := None;
          path := EmptyString;
          atomicFileWriter := None;
          fakebytes := [] |}, None))
  end.

(** *** The read path *)

Definition load (idbo : indexDBObject) : M (indexDBObject * option error) :=
  if loaded idbo then mret (idbo, None)
  else
    '(ts, del, _, metabytes, p, err) ← Lookup (indexDB idbo) (hash idbo) 0;
    let idbo := set_lookup ts del p idbo in
    match err with
    | Some e => mret (idbo, Some e)
    | None =>
        let idbo := set_metadata (Some ∅) idbo in
        let '(m, err) := json_Unmarshal metabytes (metadata idbo) in
        let idbo := set_metadata m idbo in
        match err with
        | Some e => mret (idbo, Some e)
        | None => mret (set_loaded true idbo, None)
        end
    end.

Definition Metadata (idbo : indexDBObject) : M (indexDBObject * Go.map_string_string) :=
  '(idbo, err) ← load idbo;
  match err with
  | Some _ => mret (idbo, None)
  | None => mret (idbo, metadata idbo)
  end.

Definition ContentLength (idbo : indexDBObject) : M (indexDBObject * Z) :=
  '(idbo, err) ← load idbo;
  match err with
  | Some _ => mret (idbo, -1)
  | None =>
      let '(contentLength, err) :=
        Go.strconv_ParseInt (Go.index (metadata idbo) "Content-Length") in
      match err with
      | Some _ => mret (idbo, -1)
      | None => mret (idbo, contentLength)
      end
  end.

Definition Quarantine (idbo : indexDBObject) : M (indexDBObject * option error) :=
  mret (idbo, None).

Definition Exists (idbo : indexDBObject) : M (indexDBObject * bool) :=
  '(idbo, err) ← load idbo;
  match err with
  | Some _ => mret (idbo, false)
  | None => mret (idbo, negb (deletion idbo))
  end.

(** *** The write path *)

Definition SetData (idbo : indexDBObject) (size : Z)
  : M (indexDBObject * (option Writer * option error)) :=
  _ ← match atomicFileWriter idbo with
      | Some w => _ ← Abandon w; mret ()
      | None => mret ()
      end;
  '(w, err) ← TempFile (indexDB idbo) (hash idbo) 0 Go.MaxInt64 size;
  let idbo := set_atomicFileWriter w idbo in
  mret (idbo, (atomicFileWriter idbo, err)).

Definition commit (idbo : indexDBObject) (metadata : Go.map_string_string)
    (deletion : bool) : M (indexDBObject * option error) :=
  let checked : Z + error :=
    if notNil (atomicFileWriter idbo) || deletion then
      let '(timestampStr, ok) := Go.index_ok metadata "X-Timestamp" in
      if negb ok then inr (errors_New "no timestamp in metadata")
      else
        let '(timestampTime, err) := ParseDate timestampStr in
        match err with
        | Some e => inr e
        | None => inl (time_UnixNano timestampTime)
        end
    else inl 0 in
  match checked with
  | inr e => mret (idbo, Some e)
  | inl timestamp =>
      let '(metabytes, err) := json_Marshal metadata in
      match err with
      | Some e => mret (idbo, Some e)
      | None =>
          err ← IndexDB_Commit (indexDB idbo) (atomicFileWriter idbo) (hash idbo)
                  0 timestamp deletion (MetadataHash metadata) metabytes;
          mret (set_atomicFileWriter None idbo, err)
      end
  end.

Definition Commit (idbo : indexDBObject) (metadata : Go.map_string_string) :=
  commit idbo metadata false.

Definition CommitMetadata (idbo : indexDBObject) (metadata : Go.map_string_string) :=
  commit idbo metadata false.

Definition Delete (idbo : indexDBObject) (metadata : Go.map_string_string) :=
  commit idbo metadata true.

Definition Close (idbo : indexDBObject) : M (indexDBObject * option error) :=
  match atomicFileWriter idbo with
  | Some w =>
      _ ← Abandon w;
      mret (set_atomicFileWriter None idbo, None)
  | None => mret (idbo, None)
  end.

(** *** A handle in use

    The methods a caller may invoke on a handle, and a run of them one
    after the other on the same handle. *)
Inductive Op : Type :=
| OpMetadata
| OpContentLength
| OpQuarantine
| OpExists
| OpSetData (size : Z)
| OpCommit (metadata : Go.map_string_string)
| OpCommitMetadata (metadata : Go.map_string_string)
| OpDelete (metadata : Go.map_string_string)
| OpClose.

Definition invoke (op : Op) (idbo : indexDBObject) : M indexDBObject :=
  match op with
  | OpMetadata => r ← Metadata idbo; mret (fst r)
  | OpContentLength => r ← ContentLength idbo; mret (fst r)
  | OpQuarantine => r ← Quarantine idbo; mret (fst r)
  | OpExists => r ← Exists idbo; mret (fst r)
  | OpSetData size => r ← SetData idbo size; mret (fst r)
  | OpCommit md => r ← Commit idbo md; mret (fst r)
  | OpCommitMetadata md => r ← CommitMetadata idbo md; mret (fst r)
  | OpDelete md => r ← Delete idbo md; mret (fst r)
  | OpClose => r ← Close idbo; mret (fst r)
  end.

Fixpoint run (ops : list Op) (idbo : indexDBObject) : M indexDBObject :=
  match ops with
  | [] => mret idbo
  | op :: rest => idbo ← invoke op idbo; run rest idbo
  end.

(** What a call does to the number of atomic writers that were handed out
    and are neither abandoned nor given to the index database's commit. *)
Definition delta (c : Call) : Z :=
  match c with
  | CTempFile _ _ _ _ _ (Some _) => 1
  | CAbandon _ => -1
  | CCommit _ (Some _) _ _ _ _ _ _ => -1
  | _ => 0
  end.

Definition outstanding (cs : list Call) : Z :=
  fold_right (fun c n => delta c + n) 0 cs.

Definition pending (idbo : indexDBObject) : Z :=
  if notNil (atomicFileWriter idbo) then 1 else 0.

(** From the handle [idbo] in the world [w] to the handle and world [r]:
    the calls made in between account for the change in the handle's
    pending writer. *)
Definition accounted (idbo : indexDBObject) (w : World)
    (r : indexDBObject * World) : Prop :=
  exists made, calls (snd r) = calls w ++ made
               /\ outstanding made = pending (fst r) - pending idbo.

End Engine.

(** ** The properties stated in the specification, in its own words *)

Module Spec.

(** The characters of [digits] *)
Fixpoint among (digits : string) (c : ascii) : bool :=
  match digits with
  | EmptyString => false
  | String d r => Ascii.eqb c d || among r c
  end.

Fixpoint all (p : ascii -> bool) (s : string) : bool :=
  match s with
  | EmptyString => true
  | String c r => p c && all p r
  end.

Definition lowerHex : ascii -> bool := among "0123456789abcdef".
Definition validHex : ascii -> bool := among "0123456789abcdefABCDEF".
Definition decimalDigit : ascii -> bool := among "0123456789".

(** The value of a hexadecimal digit, by its place in the alphabet. *)
Fixpoint place (digits : string) (c : ascii) : Z :=
  match digits with
  | EmptyString => 0
  | String d r => if Ascii.eqb c d then 0 else 1 + place r c
  end.

Definition hexValue (c : ascii) : Z :=
  if among "0123456789abcdef" c then place "0123456789abcdef" c
  else 10 + place "ABCDEF" c.

(** The bytes a hexadecimal string decodes to, two digits a byte. *)
Fixpoint decoding (s : string) : list Z :=
  match s with
  | String p (String q r) => 16 * hexValue p + hexValue q :: decoding r
  | _ => []
  end.

(** The first four bytes as a big-endian 32-bit integer. *)
Definition bigEndian32 (bs : list Z) : Z :=
  match bs with
  | b0 :: b1 :: b2 :: b3 :: _ => b0 * 2 ^ 24 + b1 * 2 ^ 16 + b2 * 2 ^ 8 + b3
  | _ => 0
  end.

(** [PartitionOf(hash, ringPartPower)] *)
Definition PartitionOf (hsh : string) (ringPartPower : Z) : Z :=
  bigEndian32 (decoding hsh) / 2 ^ (32 - ringPartPower).

(** A base-10 64-bit integer: an optional sign, one digit or more, and a
    value no smaller than [-2^63] and no larger than [2^63 - 1]. *)
Fixpoint decimalValue (s : string) (acc : Z) : Z :=
  match s with
  | EmptyString => acc
  | String c r => decimalValue r (10 * acc + place "0123456789" c)
  end.

Definition unsignedPart (s : string) : bool * string :=
  match s with
  | String c r =>
      if Ascii.eqb c "+" then (false, r)
      else if Ascii.eqb c "-" then (true, r)
      else (false, s)
  | EmptyString => (false, s)
  end.

Definition base10Int64 (s : string) : option Z :=
  let '(neg, ds) := unsignedPart s in
  match ds with
  | EmptyString => None
  | _ =>
      if all decimalDigit ds then
        let v := if neg then - decimalValue ds 0 else decimalValue ds 0 in
        if (- 2 ^ 63 <=? v) && (v <=? 2 ^ 63 - 1) then Some v else None
      else None
  end.

End Spec.

(** ** A small instance of the collaborators, to run the model on *)

Module Demo.

Record state : Type := {
  records : gmap string (Z * bool * bytes * string);
  items : list string
}.

Definition lookup (db : IndexDB) (hsh : string) (shard : Z) (s : state)
  : (Z * bool * bytes * bytes * string * option error) * state :=
  match records s !! hsh with
  | Some (ts, del, metabytes, p) => ((ts, del, [], metabytes, p, None), s)
  | None => ((0, false, [], [], EmptyString, Some (foreign "no such object")), s)
  end.

(** Metadata bytes here hold the content length only. *)
Definition unmarshal (b : bytes) (m : Go.map_string_string)
  : Go.map_string_string * option error :=
  match b with
  | [] => (m, Some (foreign "unexpected end of JSON input"))
  | _ => (Some {[ "Content-Length" := string_of_list_byte b ]}, None)
  end.

Definition parseDate (s : string) : Z * option error :=
  match Spec.base10Int64 s with
  | Some v => (v, None)
  | None => (0, Some (foreign "bad timestamp"))
  end.

#[global] Instance externals : Externals := {|
  Store := state;
  Writer := N;
  Item := string;
  Time := Z;
  WaitGroup := unit;
  idb_Lookup := lookup;
  idb_List := fun _ _ s => ((items s, None), s);
  idb_TempFile := fun _ _ _ _ size s => ((Some (Z.to_N size), None), s);
  idb_Commit := fun _ _ _ _ _ _ _ _ s => (None, s);
  afw_Abandon := fun _ s => (None, s);
  time_Now := fun s => (1500000000, s);
  time_UnixNano := fun t => t * 1000000000;
  ObjHash := fun vars _ _ => Go.index vars "obj-hash";
  MetadataHash := fun _ => [];
  ParseDate := parseDate;
  CanonicalTimestampFromTime := Go.strconv_Itoa;
  json_Marshal := fun _ => ([], None);
  json_Unmarshal := unmarshal;
  fmt_v := fun itm => itm;
  unicode_ToLower := fun s => s
|}.

Definition db : IndexDB := {| idbRef := 1; RingPartPower := 10 |}.

Definition engine : indexDBEngine := {|
  idbe_devicespath := "/srv/node";
  idbe_hashPathPrefix := "pre";
  idbe_hashPathSuffix := "suf";
  idbe_fallocateReserve := 0;
  idbe_reclaimAge := 604800;
  idbe_indexDBs := {[ "sda" := Some db ]}
|}.

Definition theHash : string := "d41d8cd98f00b204e9800998ecf8427e".

Definition emptyWorld : World :=
  {| store := {| records := ∅; items := [] |}; calls := [] |}.

(** One record, whose metadata bytes are empty and so do not decode. *)
Definition brokenWorld : World :=
  {| store := {| records := {[ theHash := (7, true, [], "/srv/node/sda/objects/x") ]};
                 items := [theHash] |};
     calls := [] |}.

(** One record whose metadata bytes decode. *)
Definition goodWorld : World :=
  {| store := {| records := {[ theHash := (7, false, list_byte_of_string "42",
                                           "/srv/node/sda/objects/y") ]};
                 items := [theHash] |};
     calls := [] |}.

(** A handle as [New] makes it for an ordinary object. *)
Definition fresh : indexDBObject := {|
  fallocateReserve := 0;
  reclaimAge := 604800;
  asyncWG := tt;
  indexDB := db;
  hash := theHash;
  loaded := false;
  timestamp := 0;
  deletion := false;
  metadata := None;
  path := EmptyString;
  atomicFileWriter := None;
  fakebytes := []
|}.

(** The same handle after a [SetData]: a writer is pending. *)
Definition writing : indexDBObject := set_atomicFileWriter (Some 5%N) fresh.

Definition fakelistVars : Go.map_string_string :=
  Some {[ "device" := "sda"; "obj" := "fakelist"; "obj-hash" := theHash ]}.

End Demo.

(** ** Reading the payload: [Copy] and [CopyRange] *)

(** What [io.Copy] and [common.Copy] read from: the buffer over
    [fakebytes], or the opened file. *)
Inductive Reader (File : Type) : Type :=
| FromBuffer (b : bytes)
| FromFile (f : File).
Arguments FromBuffer {File} b.
Arguments FromFile {File} f.

(** The files and the copying helpers.  [os.Open] gives a file or an
    error, never both. *)
Class Files `{X : Externals} : Type := {
  File : Type;
  Sink : Type;
  os_Open : string -> Store -> (File + error) * Store;
  file_Seek : File -> Z -> Z -> Store -> (Z * option error) * Store;
  file_Close : File -> Store -> option error * Store;
  io_Copy : Sink -> Reader File -> Store -> (Z * option error) * Store;
  common_Copy : Reader File -> list Sink -> Store -> (Z * option error) * Store;
  common_CopyN : File -> Z -> Sink -> Store -> (Z * option error) * Store
}.

Section Payload.
Context `{F : Files}.

Inductive FileCall : Type :=
| FOpen (name : string) (got : File + error)
| FSeek (f : File) (offset whence : Z)
| FIoCopy (dst : Sink) (src : Reader File)
| FCommonCopy (src : Reader File) (dsts : list Sink)
| FCopyN (src : File) (n : Z) (dst : Sink)
| FClose (f : File).

(** The world of the handle, and the calls made on files. *)
Record FWorld : Type := {
  world : World;
  fcalls : list FileCall
}.

Definition MF (A : Type) : Type := FWorld -> A * FWorld.

Definition fret {A : Type} (a : A) : MF A := fun fw => (a, fw).

Definition fbind {A B : Type} (m : MF A) (k : A -> MF B) : MF B :=
  fun fw => let '(a, fw1) := m fw in k a fw1.

(** A method of the handle, run where files are in view. *)
Definition lift {A : Type} (m : M A) : MF A :=
  fun fw => let '(a, w) := m (world fw) in
            (a, {| world := w; fcalls := fcalls fw |}).

Definition fextern {A : Type} (f : Store -> A * Store) (c : A -> FileCall) : MF A :=
  fun fw => let '(a, s) := f (store (world fw)) in
            (a, {| world := {| store := s; calls := calls (world fw) |};
                   fcalls := fcalls fw ++ [c a] |}).

Definition Open (name : string) := fextern (os_Open name) (fun got => FOpen name got).
Definition Seek (f : File) (offset whence : Z) :=
  fextern (file_Seek f offset whence) (fun _ => FSeek f offset whence).
Definition File_Close (f : File) := fextern (file_Close f) (fun _ => FClose f).
Definition IoCopy (dst : Sink) (src : Reader File) :=
  fextern (io_Copy dst src) (fun _ => FIoCopy dst src).
Definition CommonCopy (src : Reader File) (dsts : list Sink) :=
  fextern (common_Copy src dsts) (fun _ => FCommonCopy src dsts).
Definition CopyN (src : File) (n : Z) (dst : Sink) :=
  fextern (common_CopyN src n dst) (fun _ => FCopyN src n dst).

(** [os.SEEK_SET] *)
Definition SEEK_SET : Z := 0.

Definition Copy (idbo : indexDBObject) (dsts : list Sink)
  : MF (indexDBObject * (Z * option error)) :=
  fbind (lift (load idbo)) (fun '(idbo, err) =>
  match err with
  | Some e => fret (idbo, (0, Some e))
  | None =>
      fbind
        (if String.eqb (path idbo) "fakelist"
         then fret (inl (FromBuffer (fakebytes idbo), None))
         else
           fbind (Open (path idbo)) (fun got =>
           match got with
           | inr e => fret (inr e)
           | inl f => fret (inl (FromFile f, Some f))
           end))
        (fun opened =>
      match opened with
      | inr e => fret (idbo, (0, Some e))
      | inl (r, f) =>
          fbind
            (match dsts with
             | [dst] => IoCopy dst r
             | _ => CommonCopy r dsts
             end)
            (fun '(written, err) =>
          match f with
          | Some f =>
              match err with
              | None => fbind (File_Close f) (fun err => fret (idbo, (written, err)))
              | Some e => fbind (File_Close f) (fun _ => fret (idbo, (written, Some e)))
              end
          | None => fret (idbo, (written, err))
          end)
      end)
  end).

Definition CopyRange (idbo : indexDBObject) (w : Sink) (start end_ : Z)
  : MF (indexDBObject * (Z * option error)) :=
  fbind (lift (load idbo)) (fun '(idbo, err) =>
  match err with
  | Some e => fret (idbo, (0, Some e))
  | None =>
      fbind (Open (path idbo)) (fun got =>
      match got with
      | inr e => fret (idbo, (0, Some e))
      | inl f =>
          fbind (Seek f start SEEK_SET) (fun '(_, err) =>
          match err with
          | Some e => fbind (File_Close f) (fun _ => fret (idbo, (0, Some e)))
          | None =>
              fbind (CopyN f (Go.int64 (end_ - start)) w) (fun '(written, err) =>
              match err with
              | None => fbind (File_Close f) (fun err => fret (idbo, (written, err)))
              | Some e => fbind (File_Close f) (fun _ => fret (idbo, (written, Some e)))
              end)
          end)
      end)
  end).

(** [Repr] *)
Definition Repr (idbo : indexDBObject) : string :=
  "indexDBObject<" +:+ hash idbo +:+ ", " +:+ Go.strconv_Itoa (timestamp idbo) +:+ ">".

(** The files opened and not closed, counted over the calls on files. *)
Definition fdelta (c : FileCall) : Z :=
  match c with
  | FOpen _ (inl _) => 1
  | FClose _ => -1
  | _ => 0
  end.

Definition openFiles (cs : list FileCall) : Z :=
  fold_right (fun c n => fdelta c + n) 0 cs.

End Payload.

(** ** The writer protocol *)

Section Protocol.
Context `{X : Externals}.

(** [follows cur cs cur']: the calls [cs], made by a handle whose pending
    writer is [cur], keep to the protocol of the atomic writers and leave
    [cur'] pending.  A temporary file is asked for only when no writer is
    pending, and what is abandoned or committed is the pending writer. *)
Inductive follows : option Writer -> list Call -> option Writer -> Prop :=
| follows_nil cur : follows cur [] cur
| follows_lookup cur db hsh shard cs cur' :
    follows cur cs cur' -> follows cur (CLookup db hsh shard :: cs) cur'
| follows_tempfile db hsh shard token size got cs cur' :
    follows got cs cur' ->
    follows None (CTempFile db hsh shard token size got :: cs) cur'
| follows_abandon w cs cur' :
    follows None cs cur' -> follows (Some w) (CAbandon w :: cs) cur'
| follows_commit cur db hsh shard ts del mh mb cs cur' :
    follows None cs cur' ->
    follows cur (CCommit db cur hsh shard ts del mh mb :: cs) cur'.

(** The calls that a handle on the index database [db] with the hash
    [hsh] addresses to that database and that hash, under the shard 0. *)
Definition addressed (db : IndexDB) (hsh : string) (c : Call) : Prop :=
  match c with
  | CLookup db' h shard => db' = db /\ h = hsh /\ shard = 0
  | CTempFile db' h shard token _ _ =>
      db' = db /\ h = hsh /\ shard = 0 /\ token = Go.MaxInt64
  | CCommit db' _ h shard _ _ _ _ => db' = db /\ h = hsh /\ shard = 0
  | CAbandon _ => True
  | CNow => False
  | CList _ _ => False
  end.

Definition isLookup (c : Call) : bool :=
  match c with
  | CLookup _ _ _ => true
  | _ => false
  end.

(** From [idbo] in [w] to [r]: the calls made keep to the protocol, are all
    addressed to the handle's own database and hash, and the fields that
    say what the handle stands for are as they were. *)
Definition orderly (idbo : indexDBObject) (w : World)
    (r : indexDBObject * World) : Prop :=
  exists made,
    calls (snd r) = calls w ++ made
    /\ follows (atomicFileWriter idbo) made (atomicFileWriter (fst r))
    /\ Forall (addressed (indexDB idbo) (hash idbo)) made
    /\ indexDB (fst r) = indexDB idbo
    /\ hash (fst r) = hash idbo
    /\ fakebytes (fst r) = fakebytes idbo
    /\ fallocateReserve (fst r) = fallocateReserve idbo
    /\ reclaimAge (fst r) = reclaimAge idbo
    /\ asyncWG (fst r) = asyncWG idbo.

(** From [idbo] in [w] to [r]: nothing was looked up and the handle
    differs at most in its pending writer. *)
Definition frozen (idbo : indexDBObject) (w : World)
    (r : indexDBObject * World) : Prop :=
  fst r = set_atomicFileWriter (atomicFileWriter (fst r)) idbo
  /\ exists made, calls (snd r) = calls w ++ made
                  /\ forallb (fun c => negb (isLookup c)) made = true.

End Protocol.

(** ** Files for the small instance *)

Module DemoFiles.
Import Demo.

(** A file is its name; a sink is a number; a copy reports the size of a
    buffer and 3 bytes for any file; a seek before the start fails. *)
Definition copied (src : Reader string) : Z :=
  match src with
  | FromBuffer b => Z.of_nat (length b)
  | FromFile _ => 3
  end.

#[global] Instance files : Files := {|
  File := string;
  Sink := N;
  os_Open := fun name s =>
    (if String.eqb name EmptyString then inr (foreign "no such file") else inl name, s);
  file_Seek := fun _ offset _ s =>
    (if offset <? 0 then (0, Some (foreign "invalid argument")) else (offset, None), s);
  file_Close := fun _ s => (None, s);
  io_Copy := fun _ src s => ((copied src, None), s);
  common_Copy := fun src _ s => ((copied src, None), s);
  common_CopyN := fun _ n _ s => ((n, None), s)
|}.

Definition start (w : World) : FWorld := {| world := w; fcalls := [] |}.

Definition sink (n : N) : @Sink externals files := n.
Definition file (name : string) : @File externals files := name.

(** A loaded handle on a payload file. *)
Definition stored : indexDBObject :=
  set_loaded true (set_lookup 7 false "/srv/node/sda/objects/y" fresh).

(** A loaded handle whose path is the name [fakelist]. *)
Definition synthetic : indexDBObject :=
  set_loaded true (set_lookup 7 false "fakelist" fresh).

(** A loaded handle with no path. *)
Definition pathless : indexDBObject := set_loaded true fresh.

(** One record that is found and whose metadata decode, with no path. *)
Definition lostWorld : World :=
  {| store := {| records := {[ theHash := (7, false, list_byte_of_string "42",
                                           EmptyString) ]};
                 items := [theHash] |};
     calls := [] |}.

End DemoFiles.

(** ** Building the engine: [indexDBEngineConstructor] *)

Module GoBits.

(** [len8tab] of [math/bits]: the bit length of every byte. *)
Definition len8tab : list Z :=
  [0; 1; 2; 2; 3; 3; 3; 3] ++ repeat 4 8 ++ repeat 5 16 ++ repeat 6 32
  ++ repeat 7 64 ++ repeat 8 128.

(** [bits.Len64]; after the three steps [x] is below 256, within the
    table. *)
Definition bits_Len64 (x : Z) : Z :=
  let '(x, n) := if 2 ^ 32 <=? x then (Z.shiftr x 32, 32) else (x, 0) in
  let '(x, n) := if 2 ^ 16 <=? x then (Z.shiftr x 16, n + 16) else (x, n) in
  let '(x, n) := if 2 ^ 8 <=? x then (Z.shiftr x 8, n + 8) else (x, n) in
  n + nth (Z.to_nat x) len8tab 0.

End GoBits.

(** A [*conf.Policy], as far as the constructor reads it. *)
Record Policy : Type := {
  policy_Index : Z;
  policy_Config : Go.map_string_string
}.

(** The errors of the constructor: those of its collaborators, passed on,
    and the two it makes, for a [db_part_power] and for a [subdirs] that
    [strconv.ParseInt] refuses. *)
Inductive ctorError : Type :=
| passed (e : error)
| Errorf_db_part_power (value : string) (cause : Go.numError)
| Errorf_subdirs (value : string) (cause : Go.numError).

(** What the constructor calls: the configuration, the ring, the devices
    directory and [internal.NewIndexDB] (the logger it also passes is left
    out).  [ONE_WEEK] is the constant of [common]. *)
Class Boot `{X : Externals} : Type := {
  Config : Type;
  Ring : Type;
  Dir : Type;
  FileInfo : Type;
  conf_GetHashPrefixAndSuffix : Store -> (string * string * option error) * Store;
  ring_GetRing : string -> string -> string -> Z -> Store -> (Ring + error) * Store;
  PartitionCount : Ring -> Z;
  config_GetDefault : Config -> string -> string -> string -> string;
  config_GetInt : Config -> string -> string -> Z -> Z;
  dir_Open : string -> Store -> (Dir + error) * Store;
  dir_Readdirnames : Dir -> Z -> Store -> (list string * option error) * Store;
  dir_Close : Dir -> Store -> option error * Store;
  os_Stat : string -> Store -> (FileInfo + error) * Store;
  IsDir : FileInfo -> bool;
  path_Join : list string -> string;
  PolicyDir : Z -> string;
  NewIndexDB : string -> string -> string -> Z -> Z -> Z -> Store ->
               (option IndexDB * option error) * Store;
  ONE_WEEK : Z
}.

Section Constructor.
Context `{B : Boot}.

Inductive BootCall : Type :=
| BHashPrefixAndSuffix
| BGetRing (ringType hashPathPrefix hashPathSuffix : string) (policy : Z)
| BOpen (name : string)
| BReaddirnames (d : Dir) (n : Z)
| BClose (d : Dir)
| BStat (name : string)
| BNewIndexDB (dbpath filepath temppath : string)
              (ringPartPower dbPartPower subdirs : Z).

Record BWorld : Type := {
  bstore : Store;
  bcalls : list BootCall
}.

Definition MB (A : Type) : Type := BWorld -> A * BWorld.

Definition bret {A : Type} (a : A) : MB A := fun bw => (a, bw).

Definition bbind {A C : Type} (m : MB A) (k : A -> MB C) : MB C :=
  fun bw => let '(a, bw1) := m bw in k a bw1.

Definition bextern {A : Type} (f : Store -> A * Store) (c : BootCall) : MB A :=
  fun bw => let '(a, s) := f (bstore bw) in
            (a, {| bstore := s; bcalls := bcalls bw ++ [c] |}).

(** The loop over the names in the devices directory. *)
Fixpoint scanDevices (policy : Policy) (devicespath dbspath : string)
    (ringPartPower dbPartPower subdirs : Z) (dirs : list string)
    (indexDBs : gmap string (option IndexDB))
  : MB (gmap string (option IndexDB) + error) :=
  match dirs with
  | [] => bret (inl indexDBs)
  | dirname :: rest =>
      let dirpath := path_Join [devicespath; dirname] in
      bbind (bextern (os_Stat dirpath) (BStat dirpath)) (fun fi =>
      match fi with
      | inr e => bret (inr e)
      | inl fi =>
          if IsDir fi then
            let dbpath :=
              if String.eqb dbspath EmptyString
              then path_Join [dirpath; PolicyDir (policy_Index policy)]
              else path_Join [dbspath; dirname; PolicyDir (policy_Index policy)] in
            let filepath := path_Join [dirpath; PolicyDir (policy_Index policy)] in
            let temppath := path_Join [dirpath; PolicyDir (policy_Index policy); "temp"] in
            bbind (bextern (NewIndexDB dbpath filepath temppath
                                       ringPartPower dbPartPower subdirs)
                           (BNewIndexDB dbpath filepath temppath
                                        ringPartPower dbPartPower subdirs))
                  (fun '(db, err) =>
            let indexDBs := <[dirname := db]> indexDBs in
            match err with
            | Some e => bret (inr e)
            | None => scanDevices policy devicespath dbspath
                                  ringPartPower dbPartPower subdirs rest indexDBs
            end)
          else scanDevices policy devicespath dbspath
                           ringPartPower dbPartPower subdirs rest indexDBs
      end)
  end.

Definition indexDBEngineConstructor (config : Config) (policy : Policy)
  : MB (option indexDBEngine * option ctorError) :=
  bbind (bextern conf_GetHashPrefixAndSuffix BHashPrefixAndSuffix)
        (fun '(hashPathPrefix, hashPathSuffix, err) =>
  match err with
  | Some e => bret (None, Some (passed e))
  | None =>
  bbind (bextern (ring_GetRing "object" hashPathPrefix hashPathSuffix (policy_Index policy))
                 (BGetRing "object" hashPathPrefix hashPathSuffix (policy_Index policy)))
        (fun ringg =>
  match ringg with
  | inr e => bret (None, Some (passed e))
  | inl ringg =>
  let ringPartPower := GoBits.bits_Len64 (PartitionCount ringg) in
  let dbPartPower : Z + ctorError :=
    if negb (String.eqb (Go.index (policy_Config policy) "db_part_power") EmptyString)
    then
      let '(dbPartPowerInt64, err) :=
        Go.strconv_ParseInt (Go.index (policy_Config policy) "db_part_power") in
      match err with
      | Some e =>
          inr (Errorf_db_part_power (Go.index (policy_Config policy) "db_part_power") e)
      | None => inl dbPartPowerInt64
      end
    else inl 0 in
  match dbPartPower with
  | inr e => bret (None, Some e)
  | inl dbPartPower =>
  let subdirs : Z + ctorError :=
    if negb (String.eqb (Go.index (policy_Config policy) "subdirs") EmptyString)
    then
      let '(subdirsInt64, err) :=
        Go.strconv_ParseInt (Go.index (policy_Config policy) "subdirs") in
      match err with
      | Some e => inr (Errorf_subdirs (Go.index (policy_Config policy) "subdirs") e)
      | None => inl subdirsInt64
      end
    else inl 64 in
  match subdirs with
  | inr e => bret (None, Some e)
  | inl subdirs =>
  let devicespath := config_GetDefault config "app:object-server" "devices" "/srv/node" in
  let dbspath := config_GetDefault config "app:object-server" "dbs" EmptyString in
  bbind (bextern (dir_Open devicespath) (BOpen devicespath)) (fun d =>
  match d with
  | inr e => bret (None, Some (passed e))
  | inl d =>
  bbind (bextern (dir_Readdirnames d (-1)) (BReaddirnames d (-1))) (fun '(dirs, err) =>
  bbind (bextern (dir_Close d) (BClose d)) (fun _ =>
  match err with
  | Some e => bret (None, Some (passed e))
  | None =>
  bbind (scanDevices policy devicespath dbspath ringPartPower dbPartPower subdirs dirs ∅)
        (fun scanned =>
  match scanned with
  | inr e => bret (None, Some (passed e))
  | inl indexDBs =>
      bret (Some {|
        idbe_devicespath := devicespath;
        idbe_hashPathPrefix := hashPathPrefix;
        idbe_hashPathSuffix := hashPathSuffix;
        idbe_fallocateReserve :=
          config_GetInt config "app:object-server" "fallocate_reserve" 0;
        idbe_reclaimAge :=
          config_GetInt config "app:object-server" "reclaim_age" ONE_WEEK;
        idbe_indexDBs := indexDBs |}, None)
  end)
  end))
  end)
  end
  end
  end)
  end).

(** The calls of the loop. *)
Definition scanCall (c : BootCall) : bool :=
  match c with
  | BStat _ => true
  | BNewIndexDB _ _ _ _ _ _ => true
  | _ => false
  end.

(** What a call to [NewIndexDB] is given, set against what the
    constructor worked out. *)
Definition configured (ringPartPower dbPartPower subdirs : Z) (separate : bool)
    (c : BootCall) : Prop :=
  match c with
  | BNewIndexDB dbpath filepath temppath r p sd =>
      r = ringPartPower /\ p = dbPartPower /\ sd = subdirs
      /\ (separate = false -> dbpath = filepath)
  | _ => True
  end.






End Constructor.

(** ** A devices directory for the small instance *)

Module DemoBoot.
Import Demo.

(** Two entries under [/srv/node]: the device [sda], a directory, and a
    plain file [README]; no other directory can be read.  A configuration
    is the devices path it sets, the empty string when it sets none, and
    every other setting is at its default; the ring has 1024 partitions. *)
Definition join (parts : list string) : string :=
  foldr (fun p rest => match rest with
                       | EmptyString => p
                       | _ => p +:+ "/" +:+ rest
                       end) EmptyString parts.

#[global] Instance boot : Boot := {|
  Config := string;
  Ring := Z;
  Dir := string;
  FileInfo := bool;
  conf_GetHashPrefixAndSuffix := fun s => (("pre"%string, "suf"%string, None), s);
  ring_GetRing := fun _ _ _ _ s => (inl 1024, s);
  PartitionCount := fun r => r;
  config_GetDefault := fun cfg _ key d =>
    if String.eqb key "devices" && negb (String.eqb cfg EmptyString) then cfg else d;
  config_GetInt := fun _ _ _ d => d;
  dir_Open := fun name s => (inl name, s);
  dir_Readdirnames := fun d _ s =>
    (if String.eqb d "/srv/node"
     then (["sda"%string; "README"%string], None)
     else ([], Some (foreign "not a directory")), s);
  dir_Close := fun _ s => (None, s);
  os_Stat := fun name s => (inl (negb (String.eqb name "/srv/node/README")), s);
  IsDir := fun fi => fi;
  path_Join := join;
  PolicyDir := fun _ => "objects"%string;
  NewIndexDB := fun _ _ _ r _ _ s => ((Some {| idbRef := 1; RingPartPower := r |}, None), s);
  ONE_WEEK := 604800
|}.

Definition noPolicy : Policy := {| policy_Index := 0; policy_Config := None |}.

Definition badPolicy : Policy :=
  {| policy_Index := 0; policy_Config := Some {[ "db_part_power" := "1_0" ]} |}.

Definition badSubdirs : Policy :=
  {| policy_Index := 0; policy_Config := Some {[ "subdirs" := "many" ]} |}.

(** The engine that the constructor builds from the directory. *)
Definition built : indexDBEngine := {|
  idbe_devicespath := "/srv/node";
  idbe_hashPathPrefix := "pre";
  idbe_hashPathSuffix := "suf";
  idbe_fallocateReserve := 0;
  idbe_reclaimAge := 604800;
  idbe_indexDBs := <[ "sda" := Some {| idbRef := 1; RingPartPower := 11 |} ]> ∅
|}.

Definition boot0 : BWorld :=
  {| bstore := store emptyWorld; bcalls := [] |}.

End DemoBoot.

Module DemoMount.
Import Demo DemoBoot.





End DemoMount.

(** ** An index database that refuses *)

Module DemoStrict.
Import Demo.

(** As the small instance, but no temporary file of a negative size is
    given, the partition 0 cannot be listed, and a commit with a timestamp
    that is not positive is refused. *)
#[local] Instance strict : Externals | 0 := {|
  Store := state;
  Writer := N;
  Item := string;
  Time := Z;
  WaitGroup := unit;
  idb_Lookup := lookup;
  idb_List := fun _ part s =>
    (if part =? 0 then ([], Some (foreign "no such partition")) else (items s, None), s);
  idb_TempFile := fun _ _ _ _ size s =>
    (if size <? 0 then (None, Some (foreign "negative size"))
     else (Some (Z.to_N size), None), s);
  idb_Commit := fun _ _ _ _ ts _ _ _ s =>
    (if ts <=? 0 then Some (foreign "stale") else None, s);
  afw_Abandon := fun _ s => (None, s);
  time_Now := fun s => (1500000000, s);
  time_UnixNano := fun t => t * 1000000000;
  ObjHash := fun vars _ _ => Go.index vars "obj-hash";
  MetadataHash := fun _ => [];
  ParseDate := parseDate;
  CanonicalTimestampFromTime := Go.strconv_Itoa;
  json_Marshal := fun md =>
    match Go.index_ok md "unprintable" with
    | (_, true) => ([], Some (foreign "unsupported value"))
    | (_, false) => ([], None)
    end;
  json_Unmarshal := unmarshal;
  fmt_v := fun itm => itm;
  unicode_ToLower := fun s => s
|}.

Definition world0 : @World strict :=
  {| store := {| records := ∅; items := [] |}; calls := [] |}.

Definition handle : @indexDBObject strict := {|
  fallocateReserve := 0;
  reclaimAge := 604800;
  asyncWG := tt;
  indexDB := db;
  hash := theHash;
  loaded := false;
  timestamp := 0;
  deletion := false;
  metadata := None;
  path := EmptyString;
  atomicFileWriter := None;
  fakebytes := []
|}.

Definition zeroHash : string := "00000000000000000000000000000000".

Definition writing : @indexDBObject strict :=
  @set_atomicFileWriter strict (Some 5%N) handle.




End DemoStrict.

(** ** Facts about the library functions *)

Module GoFacts.
Import Go.

Ltac each_byte c :=
  destruct c as [[] [] [] [] [] [] [] []].

Lemma decimalDigit_byteval (c : ascii) :
  Spec.decimalDigit c = true ->
  48 <= byteval c <= 57 /\ Spec.place "0123456789" c = byteval c - 48.
Proof. each_byte c; vm_compute; intros H; try discriminate H; repeat split; discriminate. Qed.

Lemma ParseUint_loop_digit (c : ascii) (r : string) (n : Z) :
  Spec.decimalDigit c = true ->
  ParseUint_loop (String c r) n =
    if maxUint64 / 10 + 1 <=? n then (maxUint64, Some ErrRange)
    else if (uint64 (uint64 (n * 10) + (byteval c - 48)) <? uint64 (n * 10))
            || (maxUint64 <? uint64 (uint64 (n * 10) + (byteval c - 48)))
         then (maxUint64, Some ErrRange)
         else ParseUint_loop r (uint64 (uint64 (n * 10) + (byteval c - 48))).
Proof. each_byte c; intros H; try discriminate H; reflexivity. Qed.

Lemma ParseUint_loop_other (c : ascii) (r : string) (n : Z) :
  Spec.decimalDigit c = false ->
  ParseUint_loop (String c r) n = (0, Some ErrSyntax).
Proof. each_byte c; intros H; try discriminate H; reflexivity. Qed.

Lemma place_nonneg (digits : string) (c : ascii) : 0 <= Spec.place digits c.
Proof. induction digits as [|d r IH]; simpl; [lia|]. destruct (Ascii.eqb c d); lia. Qed.

Lemma decimalValue_cons (c : ascii) (r : string) (acc : Z) :
  Spec.decimalValue (String c r) acc
  = Spec.decimalValue r (10 * acc + Spec.place "0123456789" c).
Proof. reflexivity. Qed.

Lemma decimalValue_ge (ds : string) (acc : Z) :
  0 <= acc -> acc <= Spec.decimalValue ds acc.
Proof.
  revert acc. induction ds as [|c r IH]; intros acc Hacc; [simpl; lia|].
  rewrite decimalValue_cons.
  pose proof (place_nonneg "0123456789" c).
  specialize (IH (10 * acc + Spec.place "0123456789" c)). lia.
Qed.

(** On digits the loop computes the decimal value, and reports the values
    that do not fit 64 bits. *)
Lemma ParseUint_loop_digits (ds : string) (n : Z) :
  Spec.all Spec.decimalDigit ds = true -> 0 <= n <= maxUint64 ->
  ParseUint_loop ds n =
    if Spec.decimalValue ds n <=? maxUint64 then (Spec.decimalValue ds n, None)
    else (maxUint64, Some ErrRange).
Proof.
  revert n. induction ds as [|c r IH]; intros n Hall Hn.
  - simpl. destruct (Z.leb_spec n maxUint64); [reflexivity|lia].
  - simpl in Hall. apply andb_prop in Hall as [Hc Hr].
    rewrite ParseUint_loop_digit by exact Hc.
    destruct (decimalDigit_byteval c Hc) as [Hv Hp].
    rewrite decimalValue_cons, Hp.
    pose proof (decimalValue_ge r (10 * n + (byteval c - 48))) as Hge.
    unfold maxUint64, uint64 in *.
    change (2 ^ 64 - 1) with 18446744073709551615 in *.
    change (2 ^ 64) with 18446744073709551616 in *.
    change (18446744073709551615 / 10 + 1) with 1844674407370955162.
    destruct (Z.leb_spec 1844674407370955162 n) as [Hcut|Hcut].
    + destruct (Z.leb_spec (Spec.decimalValue r (10 * n + (byteval c - 48)))
                  18446744073709551615); [lia|reflexivity].
    + rewrite (Z.mod_small (n * 10)) by lia.
      destruct (Z.ltb_spec (n * 10 + (byteval c - 48)) 18446744073709551616) as [Hfit|Hfit].
      * rewrite (Z.mod_small (n * 10 + (byteval c - 48))) by lia.
        destruct (Z.ltb_spec (n * 10 + (byteval c - 48)) (n * 10)); [lia|].
        destruct (Z.ltb_spec 18446744073709551615 (n * 10 + (byteval c - 48))); [lia|].
        simpl orb. cbv iota.
        replace (10 * n + (byteval c - 48)) with (n * 10 + (byteval c - 48)) by lia.
        apply IH; [exact Hr|lia].
      * assert (Hw : (n * 10 + (byteval c - 48)) mod 18446744073709551616
                     = n * 10 + (byteval c - 48) - 18446744073709551616).
        { symmetry. apply Z.mod_unique with (q := 1); lia. }
        rewrite Hw.
        destruct (Z.ltb_spec (n * 10 + (byteval c - 48) - 18446744073709551616) (n * 10)); [|lia].
        simpl orb. cbv iota.
        destruct (Z.leb_spec (Spec.decimalValue r (10 * n + (byteval c - 48)))
                    18446744073709551615); [lia|reflexivity].
Qed.

Lemma ParseUint_loop_not_digits (s : string) (n : Z) :
  Spec.all Spec.decimalDigit s = false -> 0 <= n <= maxUint64 ->
  ParseUint_loop s n = (0, Some ErrSyntax) \/
  ParseUint_loop s n = (maxUint64, Some ErrRange).
Proof.
  revert n. induction s as [|c r IH]; intros n Hall Hn; [discriminate Hall|].
  simpl in Hall. destruct (Spec.decimalDigit c) eqn:Hc.
  - rewrite ParseUint_loop_digit by exact Hc.
    destruct (decimalDigit_byteval c Hc) as [Hv _].
    destruct (_ <=? n); [now right|].
    destruct (_ || _) eqn:Hor; [now right|].
    apply IH; [exact Hall|].
    unfold uint64, maxUint64.
    pose proof (Z.mod_pos_bound (n * 10 mod 2 ^ 64 + (byteval c - 48)) (2 ^ 64)).
    lia.
  - left. now apply ParseUint_loop_other.
Qed.

Lemma int64_small (x : Z) : - 2 ^ 63 <= x < 2 ^ 63 -> int64 x = x.
Proof. intros H. unfold int64. rewrite Z.mod_small by lia. lia. Qed.

Lemma int64_min : int64 (2 ^ 63) = - 2 ^ 63.
Proof. reflexivity. Qed.

(** The part of [strconv.ParseInt] after the sign has been taken off. *)
Lemma ParseInt_unsigned (neg : bool) (s1 : string) :
  let r :=
    let '(un, err) := strconv_ParseUint s1 in
    match err with
    | Some ErrSyntax => (0, Some ErrSyntax)
    | _ =>
        if negb neg && (2 ^ 63 <=? un) then (2 ^ 63 - 1, Some ErrRange)
        else if neg && (2 ^ 63 <? un) then (- 2 ^ 63, Some ErrRange)
        else (if neg then int64 (- int64 un) else int64 un, None)
    end in
  match
    match s1 with
    | EmptyString => None
    | _ =>
        if Spec.all Spec.decimalDigit s1 then
          let v := if neg then - Spec.decimalValue s1 0 else Spec.decimalValue s1 0 in
          if (- 2 ^ 63 <=? v) && (v <=? 2 ^ 63 - 1) then Some v else None
        else None
    end
  with
  | Some v => r = (v, None)
  | None => exists v e, r = (v, Some e)
  end.
Proof.
  destruct s1 as [|c s1]; [simpl; eauto|].
  assert (Hu : strconv_ParseUint (String c s1) = ParseUint_loop (String c s1) 0) by reflexivity.
  cbv zeta. rewrite Hu. clear Hu.
  set (s := String c s1).
  assert (H0 : 0 <= 0 <= maxUint64) by (unfold maxUint64; lia).
  destruct (Spec.all Spec.decimalDigit s) eqn:Hall.
  - rewrite (ParseUint_loop_digits s 0 Hall H0).
    pose proof (decimalValue_ge s 0 ltac:(lia)) as Hge.
    set (V := Spec.decimalValue s 0) in *.
    unfold maxUint64.
    destruct (Z.leb_spec V (2 ^ 64 - 1)) as [Hfit|Hfit].
    + destruct neg; simpl negb; simpl andb.
      * destruct (Z.ltb_spec (2 ^ 63) V) as [Hbig|Hbig].
        -- destruct (Z.leb_spec (- 2 ^ 63) (- V)); [lia|]. simpl. eauto.
        -- destruct (Z.leb_spec (- 2 ^ 63) (- V)); [|lia].
           destruct (Z.leb_spec (- V) (2 ^ 63 - 1)); [|lia]. simpl. f_equal.
           destruct (Z.eq_dec V (2 ^ 63)) as [->|Hne]; [reflexivity|].
           rewrite (int64_small V) by lia. apply int64_small. lia.
      * destruct (Z.leb_spec (2 ^ 63) V) as [Hbig|Hbig].
        -- destruct (Z.leb_spec (- 2 ^ 63) V); [|lia].
           destruct (Z.leb_spec V (2 ^ 63 - 1)); [lia|]. simpl. eauto.
        -- destruct (Z.leb_spec (- 2 ^ 63) V); [|lia].
           destruct (Z.leb_spec V (2 ^ 63 - 1)); [|lia]. simpl. f_equal.
           apply int64_small. lia.
    + assert (Hno : ((- 2 ^ 63 <=? (if neg then - V else V))
                     && ((if neg then - V else V) <=? 2 ^ 63 - 1)) = false).
      { destruct neg.
        - destruct (Z.leb_spec (- 2 ^ 63) (- V)); [lia|reflexivity].
        - destruct (Z.leb_spec V (2 ^ 63 - 1)); [lia|]. apply andb_false_r. }
      rewrite Hno. destruct neg; vm_compute; eauto.
  - destruct (ParseUint_loop_not_digits s 0 Hall H0) as [-> | ->].
    + eauto.
    + destruct neg; vm_compute; eauto.
Qed.

(** [strconv.ParseInt(s, 10, 64)] succeeds on the base-10 64-bit integers,
    with their value, and on nothing else. *)
Lemma strconv_ParseInt_spec (s : string) :
  match Spec.base10Int64 s with
  | Some v => strconv_ParseInt s = (v, None)
  | None => exists v e, strconv_ParseInt s = (v, Some e)
  end.
Proof.
  destruct s as [|c r]; [simpl; eauto|].
  unfold Spec.base10Int64, strconv_ParseInt, Spec.unsignedPart.
  destruct (Ascii.eqb c "+"); [exact (ParseInt_unsigned false r)|].
  destruct (Ascii.eqb c "-"); [exact (ParseInt_unsigned true r)|].
  exact (ParseInt_unsigned false (String c r)).
Qed.

Lemma base10Int64_range (s : string) (v : Z) :
  Spec.base10Int64 s = Some v -> - 2 ^ 63 <= v <= 2 ^ 63 - 1.
Proof.
  unfold Spec.base10Int64. destruct (Spec.unsignedPart s) as [neg ds].
  destruct ds; [discriminate|].
  destruct (Spec.all _ _); [|discriminate].
  cbv zeta. destruct (_ && _) eqn:Hr; [|discriminate].
  apply andb_prop in Hr as [H1 H2]. apply Z.leb_le in H1, H2.
  intros Hv. injection Hv as Hv. subst v. split; assumption.
Qed.

(** *** encoding/hex *)

Lemma fromHexChar_valid (c : ascii) :
  Spec.validHex c = true ->
  fromHexChar c = Some (Spec.hexValue c) /\ 0 <= Spec.hexValue c < 16.
Proof.
  each_byte c; intros H; try discriminate H; vm_compute;
    (split; [reflexivity | split; [discriminate | reflexivity]]).
Qed.

Lemma fromHexChar_invalid (c : ascii) :
  Spec.validHex c = false -> fromHexChar c = None.
Proof. each_byte c; intros H; try discriminate H; reflexivity. Qed.

Lemma lowerHex_validHex (c : ascii) :
  Spec.lowerHex c = true -> Spec.validHex c = true.
Proof. each_byte c; intros H; try discriminate H; reflexivity. Qed.

Lemma all_impl (p q : ascii -> bool) (s : string) :
  (forall c, p c = true -> q c = true) ->
  Spec.all p s = true -> Spec.all q s = true.
Proof.
  intros Hpq. induction s as [|c r IH]; simpl; [reflexivity|].
  intros H. apply andb_prop in H as [Hc Hr].
  rewrite (Hpq c Hc), (IH Hr). reflexivity.
Qed.

Lemma nibbles (a b : Z) :
  0 <= a < 16 -> 0 <= b < 16 ->
  Z.lor (uint8 (Z.shiftl a 4)) b = 16 * a + b /\ 0 <= 16 * a + b < 256.
Proof.
  intros Ha Hb. split; [|lia].
  assert (Ea : a = 0 \/ a = 1 \/ a = 2 \/ a = 3 \/ a = 4 \/ a = 5 \/ a = 6 \/ a = 7 \/
               a = 8 \/ a = 9 \/ a = 10 \/ a = 11 \/ a = 12 \/ a = 13 \/ a = 14 \/ a = 15) by lia.
  assert (Eb : b = 0 \/ b = 1 \/ b = 2 \/ b = 3 \/ b = 4 \/ b = 5 \/ b = 6 \/ b = 7 \/
               b = 8 \/ b = 9 \/ b = 10 \/ b = 11 \/ b = 12 \/ b = 13 \/ b = 14 \/ b = 15) by lia.
  clear Ha Hb.
  repeat (destruct Ea as [-> | Ea]); try subst a;
    repeat (destruct Eb as [-> | Eb]); try subst b; reflexivity.
Qed.

(** A string of hexadecimal digits, two for each byte, decodes without an
    error to the bytes the digits spell. *)
Lemma hex_Decode_valid (n : nat) (s : string) :
  String.length s = (2 * n)%nat ->
  Spec.all Spec.validHex s = true ->
  hex_Decode s = (Spec.decoding s, None)
  /\ length (Spec.decoding s) = n
  /\ Forall (fun b => 0 <= b < 256) (Spec.decoding s).
Proof.
  revert s. induction n as [|n IH]; intros s Hlen Hall.
  - destruct s; [|discriminate Hlen]. simpl. repeat split. constructor.
  - destruct s as [|p [|q r]]; try (cbn [String.length] in Hlen; lia).
    cbn [String.length] in Hlen.
    cbn [Spec.all] in Hall.
    apply andb_prop in Hall as [Hp Hall]. apply andb_prop in Hall as [Hq Hr].
    destruct (fromHexChar_valid p Hp) as [Ep Rp].
    destruct (fromHexChar_valid q Hq) as [Eq Rq].
    destruct (IH r ltac:(lia) Hr) as (Er & Lr & Fr).
    destruct (nibbles _ _ Rp Rq) as [Eb Rb].
    cbn [hex_Decode Spec.decoding]. rewrite Ep, Eq, Er, Eb.
    repeat split; [simpl; lia|]. constructor; assumption.
Qed.

(** A character that is no hexadecimal digit makes the decoding fail. *)
Lemma hex_Decode_invalid (n : nat) (s : string) :
  (String.length s <= 2 * n)%nat ->
  Spec.all Spec.validHex s = false ->
  exists bs e, hex_Decode s = (bs, Some e).
Proof.
  revert s. induction n as [|n IH]; intros s Hlen Hall.
  - destruct s; [discriminate Hall|simpl in Hlen; lia].
  - destruct s as [|p [|q r]]; [discriminate Hall| |].
    + cbn [Spec.all] in Hall. rewrite andb_true_r in Hall.
      cbn [hex_Decode]. rewrite (fromHexChar_invalid p Hall). eauto.
    + cbn [Spec.all] in Hall. cbn [hex_Decode].
      destruct (Spec.validHex p) eqn:Hp.
      * destruct (fromHexChar_valid p Hp) as [-> _].
        destruct (Spec.validHex q) eqn:Hq.
        -- destruct (fromHexChar_valid q Hq) as [-> _].
           cbn [String.length] in Hlen.
           destruct (IH r ltac:(lia) Hall) as (bs & e & ->). eauto.
        -- rewrite (fromHexChar_invalid q Hq). eauto.
      * rewrite (fromHexChar_invalid p Hp). eauto.
Qed.

(** [strings.ToLower] leaves a string of lower-case hexadecimal digits as
    it is. *)
Lemma strings_ToLower_lowerHex (mapRunes : string -> string) (s : string) :
  Spec.all Spec.lowerHex s = true -> strings_ToLower mapRunes s = s.
Proof.
  intros H. unfold strings_ToLower.
  assert (allASCII s = true /\ mapBytes lowerByte s = s) as [-> ->]; [|reflexivity].
  induction s as [|c r IH]; [split; reflexivity|].
  cbn [Spec.all] in H. apply andb_prop in H as [Hc Hr].
  destruct (IH Hr) as [IH1 IH2]. cbn [allASCII mapBytes]. rewrite IH1, IH2.
  clear -Hc. each_byte c; try discriminate Hc; split; reflexivity.
Qed.

(** *** Shifts and ors of bytes *)

Lemma lor_low_bits (q y m : Z) :
  0 <= m -> 0 <= y < 2 ^ m -> Z.lor (q * 2 ^ m) y = q * 2 ^ m + y.
Proof.
  intros Hm Hy.
  assert (Hland : Z.land (q * 2 ^ m) y = 0).
  { apply Z.bits_inj'. intros n Hn. rewrite Z.land_spec, Z.bits_0.
    destruct (Z.lt_ge_cases n m) as [Hlt|Hge].
    - rewrite Z.mul_pow2_bits_low by exact Hlt. reflexivity.
    - assert (Z.testbit y n = false) as ->; [|apply andb_false_r].
      apply Z.testbit_false; [exact Hn|].
      rewrite Z.div_small; [reflexivity|].
      split; [lia|]. apply Z.lt_le_trans with (2 ^ m); [lia|].
      apply Z.pow_le_mono_r; lia. }
  pose proof (Z.add_lor_land (q * 2 ^ m) y) as H. lia.
Qed.

Lemma bigEndian32_lor (b0 b1 b2 b3 : Z) :
  0 <= b0 < 256 -> 0 <= b1 < 256 -> 0 <= b2 < 256 -> 0 <= b3 < 256 ->
  Z.lor (Z.lor (Z.lor (uint64 (Z.shiftl b0 24)) (uint64 (Z.shiftl b1 16)))
               (uint64 (Z.shiftl b2 8))) b3
  = b0 * 2 ^ 24 + b1 * 2 ^ 16 + b2 * 2 ^ 8 + b3.
Proof.
  intros H0 H1 H2 H3. unfold uint64.
  rewrite !Z.shiftl_mul_pow2 by lia.
  rewrite !Z.mod_small by lia.
  rewrite (lor_low_bits b0 (b1 * 2 ^ 16) 24) by lia.
  replace (b0 * 2 ^ 24 + b1 * 2 ^ 16) with ((b0 * 2 ^ 8 + b1) * 2 ^ 16) by lia.
  rewrite (lor_low_bits (b0 * 2 ^ 8 + b1) (b2 * 2 ^ 8) 16) by lia.
  replace ((b0 * 2 ^ 8 + b1) * 2 ^ 16 + b2 * 2 ^ 8)
    with ((b0 * 2 ^ 16 + b1 * 2 ^ 8 + b2) * 2 ^ 8) by lia.
  rewrite (lor_low_bits (b0 * 2 ^ 16 + b1 * 2 ^ 8 + b2) b3 8) by lia.
  lia.
Qed.

End GoFacts.

(** ** Addressing: the ring partition of a hash *)

Module Addressing.
Import Go GoFacts.

Lemma len_32 (hsh : string) : len hsh = 32 -> String.length hsh = (2 * 16)%nat.
Proof. unfold len. lia. Qed.

(** What [ringPartOf] comes to on 32 hexadecimal digits, whatever the
    partition power. *)
Lemma ringPartOf_valid (db : IndexDB) (hsh : string) :
  len hsh = 32 -> Spec.all Spec.validHex hsh = true ->
  let count := uint64 (32 - RingPartPower db) in
  ringPartOf db hsh =
    Returns (inl (int64 (if 64 <=? count then 0
                         else Z.shiftr (Spec.bigEndian32 (Spec.decoding hsh)) count)))
  /\ 0 <= Spec.bigEndian32 (Spec.decoding hsh) < 2 ^ 32.
Proof.
  intros Hlen Hall count.
  destruct (hex_Decode_valid 16 hsh (len_32 hsh Hlen) Hall) as (Hdec & Hn & Hrange).
  unfold ringPartOf, hex_DecodeString. rewrite Hlen, Hdec. cbn [Z.eqb Pos.eqb negb].
  destruct (Spec.decoding hsh) as [|b0 [|b1 [|b2 [|b3 rest]]]]; try discriminate Hn.
  inversion Hrange as [|? ? R0 Hrange1]; subst.
  inversion Hrange1 as [|? ? R1 Hrange2]; subst.
  inversion Hrange2 as [|? ? R2 Hrange3]; subst.
  inversion Hrange3 as [|? ? R3 _]; subst.
  cbn [lookup list_lookup Spec.bigEndian32].
  rewrite (bigEndian32_lor b0 b1 b2 b3 R0 R1 R2 R3).
  split; [reflexivity|lia].
Qed.


(** C2: on a hash of exactly 32 lower-case hexadecimal digits the
    partition is the first four decoded bytes, read as a big-endian 32-bit
    integer, shifted right by [32 - ringPartPower] (for a partition power
    of at most 32); it depends on the hash and on the partition power
    only; and a hash whose length is not 32, or with a character that is
    not a hexadecimal digit, yields an error and no partition. *)
Theorem partition_of_hash (db : IndexDB) (hsh : string) :
  (len hsh = 32 -> Spec.all Spec.lowerHex hsh = true ->
   0 <= RingPartPower db <= 32 ->
   ringPartOf db hsh = Returns (inl (Spec.PartitionOf hsh (RingPartPower db)))
   /\ Spec.PartitionOf hsh (RingPartPower db)
      = Z.shiftr (Spec.bigEndian32 (Spec.decoding hsh)) (32 - RingPartPower db))
  /\ (forall db', RingPartPower db' = RingPartPower db ->
      ringPartOf db' hsh = ringPartOf db hsh)
  /\ (len hsh <> 32 ->
      ringPartOf db hsh = Returns (inr (Errorf_hash_length hsh (len hsh))))
  /\ (len hsh = 32 -> Spec.all Spec.validHex hsh = false ->
      exists cause, ringPartOf db hsh = Returns (inr (Errorf_hash_decoding hsh cause))).
Proof.
  split; [|split; [|split]].
  - intros Hlen Hlow Hpow.
    pose proof (all_impl _ _ hsh lowerHex_validHex Hlow) as Hall.
    destruct (ringPartOf_valid db hsh Hlen Hall) as [-> Hb].
    unfold uint64. rewrite (Z.mod_small (32 - RingPartPower db)) by lia.
    destruct (Z.leb_spec 64 (32 - RingPartPower db)); [lia|].
    unfold Spec.PartitionOf. rewrite Z.shiftr_div_pow2 by lia.
    split; [|reflexivity].
    rewrite int64_small; [reflexivity|].
    assert (0 < 2 ^ (32 - RingPartPower db)) by (apply Z.pow_pos_nonneg; lia).
    split.
    + apply Z.le_trans with 0; [lia|]. apply Z.div_pos; lia.
    + apply Z.le_lt_trans with (Spec.bigEndian32 (Spec.decoding hsh)); [|lia].
      apply Z.div_le_upper_bound; [lia|]. nia.
  - intros db' Hsame. unfold ringPartOf. rewrite Hsame. reflexivity.
  - intros Hlen. unfold ringPartOf.
    destruct (Z.eqb_spec (len hsh) 32); [contradiction|reflexivity].
  - intros Hlen Hbad. unfold ringPartOf, hex_DecodeString. rewrite Hlen.
    cbn [Z.eqb Pos.eqb negb].
    destruct (hex_Decode_invalid 16 hsh) as (bs & e & ->);
      [rewrite (len_32 hsh Hlen); lia | exact Hbad |].
    eauto.
Qed.

(** The hash of the specification's end-to-end scenario, with a partition
    power of 10, and two hashes that are refused. *)
Lemma partition_of_hash_witness :
  ringPartOf Demo.db Demo.theHash = Returns (inl 848)
  /\ ringPartOf Demo.db "d41d8cd9"
     = Returns (inr (Errorf_hash_length "d41d8cd9" 8))
  /\ exists cause,
       ringPartOf Demo.db "g41d8cd98f00b204e9800998ecf8427e"
       = Returns (inr (Errorf_hash_decoding "g41d8cd98f00b204e9800998ecf8427e" cause)).
Proof.
  destruct (partition_of_hash Demo.db Demo.theHash) as (H1 & _).
  destruct (partition_of_hash Demo.db "d41d8cd9") as (_ & _ & H2 & _).
  destruct (partition_of_hash Demo.db "g41d8cd98f00b204e9800998ecf8427e")
    as (_ & _ & _ & H3).
  split; [|split].
  - destruct H1 as [H1 _]; [reflexivity | reflexivity | vm_compute; split; discriminate |].
    exact H1.
  - apply H2. vm_compute. discriminate.
  - apply H3; reflexivity.
Defined.

End Addressing.

(** ** The object handle *)

Section Handle.
Context `{X : Externals}.

Ltac run_M := unfold mbind, M_bind, mret, M_ret, extern in *; cbn [store calls] in *.

Lemma load_loaded (idbo : indexDBObject) (w : World) :
  loaded idbo = true -> load idbo w = ((idbo, None), w).
Proof. intros H. unfold load. rewrite H. reflexivity. Qed.

(** One unrolling of [load] on a handle that is not loaded, with the
    answers of the lookup and of the decoder named. *)
Lemma load_unloaded (idbo : indexDBObject) (w : World)
    (ts : Z) (del : bool) (mh mb : bytes) (p : string)
    (lerr jerr : option error) (s1 : Store) (m : Go.map_string_string) :
  idb_Lookup (indexDB idbo) (hash idbo) 0 (store w) = ((ts, del, mh, mb, p, lerr), s1) ->
  json_Unmarshal mb (Some ∅) = (m, jerr) ->
  loaded idbo = false ->
  load idbo w =
    (match lerr with
     | Some e => (set_lookup ts del p idbo, Some e)
     | None =>
         match jerr with
         | Some e => (set_metadata m (set_lookup ts del p idbo), Some e)
         | None => (set_loaded true (set_metadata m (set_lookup ts del p idbo)), None)
         end
     end,
     {| store := s1; calls := calls w ++ [CLookup (indexDB idbo) (hash idbo) 0] |}).
Proof.
  intros HL HJ Hl. unfold load, Lookup. rewrite Hl. run_M. rewrite HL.
  destruct lerr as [e|]; [reflexivity|].
  cbn [metadata set_metadata]. rewrite HJ.
  destruct jerr; reflexivity.
Qed.

Lemma load_asks (idbo : indexDBObject) (w : World) :
  loaded idbo = false ->
  calls (snd (load idbo w)) = calls w ++ [CLookup (indexDB idbo) (hash idbo) 0].
Proof.
  intros Hl.
  destruct (idb_Lookup (indexDB idbo) (hash idbo) 0 (store w))
    as [[[[[[ts del] mh] mb] p] lerr] s1] eqn:HL.
  destruct (json_Unmarshal mb (Some ∅)) as [m jerr] eqn:HJ.
  rewrite (load_unloaded idbo w ts del mh mb p lerr jerr s1 m HL HJ Hl).
  reflexivity.
Qed.

(** C3: [load] on a loaded handle does nothing and succeeds; on any other
    handle it asks the index database once, fails exactly when the lookup
    fails or the metadata bytes do not decode, and then leaves [loaded]
    false, so that the next [load] asks again. *)
Theorem load_fails_exactly (idbo : indexDBObject) (w : World)
    (ts : Z) (del : bool) (mh mb : bytes) (p : string)
    (lerr jerr : option error) (s1 : Store) (m : Go.map_string_string) :
  idb_Lookup (indexDB idbo) (hash idbo) 0 (store w) = ((ts, del, mh, mb, p, lerr), s1) ->
  json_Unmarshal mb (Some ∅) = (m, jerr) ->
  (loaded idbo = true -> load idbo w = ((idbo, None), w))
  /\ (loaded idbo = false ->
      exists idbo' err,
        load idbo w =
          ((idbo', err),
           {| store := s1; calls := calls w ++ [CLookup (indexDB idbo) (hash idbo) 0] |})
        /\ err = match lerr with Some e => Some e | None => jerr end
        /\ (is_Some err <-> is_Some lerr \/ is_Some jerr)
        /\ loaded idbo' = match err with Some _ => false | None => true end
        /\ (is_Some err ->
            forall w2, calls (snd (load idbo' w2))
                       = calls w2 ++ [CLookup (indexDB idbo) (hash idbo) 0])).
Proof.
  intros HL HJ. split; [apply load_loaded|]. intros Hl.
  rewrite (load_unloaded idbo w ts del mh mb p lerr jerr s1 m HL HJ Hl).
  destruct lerr as [e|]; [|destruct jerr as [e|]]; eexists _, _;
    (split; [reflexivity|]); (split; [reflexivity|]).
  - split; [split; eauto|]. split; [exact Hl|].
    intros _ w2. apply (load_asks (set_lookup ts del p idbo) w2). exact Hl.
  - split; [split; eauto|]. split; [exact Hl|].
    intros _ w2.
    apply (load_asks (set_metadata m (set_lookup ts del p idbo)) w2). exact Hl.
  - split; [|split; [reflexivity|]].
    + split; [intros [? [=]] | intros [[? [=]] | [? [=]]]].
    + intros [? [=]].
Qed.

(** C10: a [load] that fails has changed the handle all the same.  When
    the lookup fails, [timestamp], [deletion] and [path] hold what the
    lookup returned; when the decoding fails, they do too, and [metadata]
    is no longer the old map but the fresh empty map that was handed to
    the decoder, as the decoder left it.  Only [loaded] is as before. *)
Theorem load_failure_not_atomic (idbo : indexDBObject) (w : World)
    (ts : Z) (del : bool) (mh mb : bytes) (p : string)
    (lerr jerr : option error) (s1 : Store) (m : Go.map_string_string) :
  loaded idbo = false ->
  idb_Lookup (indexDB idbo) (hash idbo) 0 (store w) = ((ts, del, mh, mb, p, lerr), s1) ->
  json_Unmarshal mb (Some ∅) = (m, jerr) ->
  (forall e, lerr = Some e ->
     let idbo' := fst (fst (load idbo w)) in
     snd (fst (load idbo w)) = Some e
     /\ timestamp idbo' = ts /\ deletion idbo' = del /\ path idbo' = p
     /\ metadata idbo' = metadata idbo
     /\ loaded idbo' = false)
  /\ (forall e, lerr = None -> jerr = Some e ->
     let idbo' := fst (fst (load idbo w)) in
     snd (fst (load idbo w)) = Some e
     /\ timestamp idbo' = ts /\ deletion idbo' = del /\ path idbo' = p
     /\ metadata idbo' = fst (json_Unmarshal mb (Some ∅))
     /\ (fst (json_Unmarshal mb (Some ∅)) = Some ∅ -> metadata idbo' = Some ∅)
     /\ loaded idbo' = false).
Proof.
  intros Hl HL HJ.
  rewrite (load_unloaded idbo w ts del mh mb p lerr jerr s1 m HL HJ Hl).
  split.
  - intros e ->. cbn. repeat split. exact Hl.
  - intros e -> ->. rewrite HJ. cbn. repeat split; [tauto|exact Hl].
Qed.

(** C4: [ContentLength] has no error to give.  Its result is [-1] when
    [load] fails, and otherwise the value of the [Content-Length] entry if
    that is a base-10 64-bit integer, and [-1] if it is not or if there is
    no such entry. *)
Theorem ContentLength_sentinel (idbo : indexDBObject) (w : World) :
  let loading := load idbo w in
  let idbo' := fst (fst loading) in
  let n := snd (fst (ContentLength idbo w)) in
  ContentLength idbo w = ((idbo', n), snd loading)
  /\ n = match snd (fst loading) with
         | Some _ => -1
         | None =>
             match Spec.base10Int64 (Go.index (metadata idbo') "Content-Length") with
             | Some v => v
             | None => -1
             end
         end
  /\ (snd (Go.index_ok (metadata idbo') "Content-Length") = false ->
      n = -1)
  /\ - 2 ^ 63 <= n <= 2 ^ 63 - 1.
Proof.
  cbv zeta. unfold ContentLength. run_M.
  destruct (load idbo w) as [[idbo' err] w'] eqn:HLoad. cbn [fst snd].
  destruct err as [e|].
  - cbn. repeat split; try reflexivity; lia.
  - pose proof (GoFacts.strconv_ParseInt_spec
                  (Go.index (metadata idbo') "Content-Length")) as HP.
    assert (Hmissing : snd (Go.index_ok (metadata idbo') "Content-Length") = false ->
                       Go.index (metadata idbo') "Content-Length" = EmptyString).
    { unfold Go.index, Go.index_ok. destruct (metadata idbo') as [g|]; [|reflexivity].
      destruct (g !! _); [discriminate|reflexivity]. }
    destruct (Spec.base10Int64 _) as [v|] eqn:HS.
    + rewrite HP. cbn [fst snd]. repeat split.
      * intros Hm. rewrite (Hmissing Hm) in HS. discriminate HS.
      * apply (GoFacts.base10Int64_range _ _ HS).
      * apply (GoFacts.base10Int64_range _ _ HS).
    + destruct HP as (v & e & ->). cbn [fst snd]. repeat split; lia.
Qed.

(** *** The write path *)

Lemma commit_no_timestamp (idbo : indexDBObject) (md : Go.map_string_string)
    (del : bool) (w : World) :
  notNil (atomicFileWriter idbo) || del = true ->
  (forall g, md = Some g -> g !! "X-Timestamp" = None) ->
  commit idbo md del w = ((idbo, Some (errors_New "no timestamp in metadata")), w).
Proof.
  intros Hguard Hmissing. unfold commit. rewrite Hguard.
  assert (Go.index_ok md "X-Timestamp" = (EmptyString, false)) as ->; [|reflexivity].
  unfold Go.index_ok. destruct md as [g|]; [|reflexivity].
  rewrite (Hmissing g eq_refl). reflexivity.
Qed.

(** C1, as the code has it: without [X-Timestamp] in the metadata,
    [Commit] and [CommitMetadata] on a handle with a pending writer, and
    [Delete] on any handle, return the error "no timestamp in metadata";
    nothing is asked of the index database and the handle is as it was,
    its pending writer still pending. *)
Theorem commit_without_timestamp (idbo : indexDBObject)
    (md : Go.map_string_string) (w : World) :
  (forall g, md = Some g -> g !! "X-Timestamp" = None) ->
  (atomicFileWriter idbo <> None ->
     Commit idbo md w = ((idbo, Some (errors_New "no timestamp in metadata")), w)
     /\ CommitMetadata idbo md w
        = ((idbo, Some (errors_New "no timestamp in metadata")), w))
  /\ Delete idbo md w = ((idbo, Some (errors_New "no timestamp in metadata")), w).
Proof.
  intros Hmissing. split.
  - intros Hw. unfold Commit, CommitMetadata.
    rewrite commit_no_timestamp; [split; reflexivity | | exact Hmissing].
    destruct (atomicFileWriter idbo); [reflexivity|contradiction].
  - unfold Delete. apply commit_no_timestamp; [apply orb_true_r | exact Hmissing].
Qed.

(** What [commit] asks of the index database once the timestamp is
    settled and the metadata are marshalled. *)
Lemma commit_forwards (idbo : indexDBObject) (md : Go.map_string_string)
    (del : bool) (w : World) (ts : Z) (mb : bytes)
    (cerr : option error) (s1 : Store) :
  (if notNil (atomicFileWriter idbo) || del
   then exists v tm, Go.index_ok md "X-Timestamp" = (v, true)
                     /\ ParseDate v = (tm, None) /\ ts = time_UnixNano tm
   else ts = 0) ->
  json_Marshal md = (mb, None) ->
  idb_Commit (indexDB idbo) (atomicFileWriter idbo) (hash idbo) 0 ts del
             (MetadataHash md) mb (store w) = (cerr, s1) ->
  commit idbo md del w =
    ((set_atomicFileWriter None idbo, cerr),
     {| store := s1;
        calls := calls w ++ [CCommit (indexDB idbo) (atomicFileWriter idbo) (hash idbo)
                                     0 ts del (MetadataHash md) mb] |}).
Proof.
  intros Hts HM HC. unfold commit, IndexDB_Commit.
  destruct (notNil (atomicFileWriter idbo) || del).
  - destruct Hts as (v & tm & -> & -> & ->). cbn [negb]. rewrite HM. run_M.
    rewrite HC. reflexivity.
  - subst ts. rewrite HM. run_M. rewrite HC. reflexivity.
Qed.

Lemma set_atomicFileWriter_same (idbo : indexDBObject) :
  set_atomicFileWriter (atomicFileWriter idbo) idbo = idbo.
Proof. destruct idbo. reflexivity. Qed.

(** C9: on a handle with no pending writer, [Commit] and [CommitMetadata]
    do not look at [X-Timestamp]: whatever the metadata hold, the commit
    goes to the index database with no writer and the timestamp 0. *)
Theorem commit_without_writer (idbo : indexDBObject)
    (md : Go.map_string_string) (w : World) (mb : bytes)
    (cerr : option error) (s1 : Store) :
  atomicFileWriter idbo = None ->
  json_Marshal md = (mb, None) ->
  idb_Commit (indexDB idbo) None (hash idbo) 0 0 false (MetadataHash md) mb (store w)
    = (cerr, s1) ->
  Commit idbo md w =
    ((idbo, cerr),
     {| store := s1;
        calls := calls w ++ [CCommit (indexDB idbo) None (hash idbo)
                                     0 0 false (MetadataHash md) mb] |})
  /\ CommitMetadata idbo md w = Commit idbo md w.
Proof.
  intros Hw HM HC. split; [|reflexivity]. unfold Commit.
  rewrite (commit_forwards idbo md false w 0 mb cerr s1).
  - rewrite Hw. rewrite <- Hw at 1. rewrite set_atomicFileWriter_same. reflexivity.
  - rewrite Hw. reflexivity.
  - exact HM.
  - rewrite Hw. exact HC.
Qed.

(** Every way through [commit]: no call, or the one commit of the
    handle's writer. *)
Lemma commit_calls (idbo : indexDBObject) (md : Go.map_string_string)
    (del : bool) (w : World) :
  commit idbo md del w = ((idbo, snd (fst (commit idbo md del w))), w)
  \/ exists ts mb,
       fst (fst (commit idbo md del w)) = set_atomicFileWriter None idbo
       /\ calls (snd (commit idbo md del w))
          = calls w ++ [CCommit (indexDB idbo) (atomicFileWriter idbo) (hash idbo)
                                0 ts del (MetadataHash md) mb].
Proof.
  unfold commit, IndexDB_Commit.
  destruct (notNil (atomicFileWriter idbo) || del).
  - destruct (Go.index_ok md "X-Timestamp") as [v []]; cbn [negb]; [|left; reflexivity].
    destruct (ParseDate v) as [tm [e|]]; [left; reflexivity|].
    destruct (json_Marshal md) as [mb [e|]]; [left; reflexivity|].
    right. run_M. destruct (idb_Commit _ _ _ _ _ _ _ _ _). eexists _, _.
    split; reflexivity.
  - destruct (json_Marshal md) as [mb [e|]]; [left; reflexivity|].
    right. run_M. destruct (idb_Commit _ _ _ _ _ _ _ _ _). eexists _, _.
    split; reflexivity.
Qed.

(** C6: [Commit] and [CommitMetadata] are one operation, [commit] with no
    deletion, and [Delete] is [commit] with the deletion; what the index
    database is given as the writer is the handle's pending writer, if
    any, whichever of the two was called. *)
Theorem commit_entry_points (idbo : indexDBObject) (md : Go.map_string_string) :
  Commit idbo md = CommitMetadata idbo md
  /\ Commit idbo md = commit idbo md false
  /\ Delete idbo md = commit idbo md true
  /\ forall w,
       calls (snd (Commit idbo md w)) = calls w
       \/ exists ts mb,
            calls (snd (Commit idbo md w))
            = calls w ++ [CCommit (indexDB idbo) (atomicFileWriter idbo) (hash idbo)
                                  0 ts false (MetadataHash md) mb].
Proof.
  repeat split. intros w. unfold Commit.
  destruct (commit_calls idbo md false w) as [-> | (ts & mb & _ & ->)];
    [left; reflexivity | right; eauto].
Qed.

(** *** One pending writer *)

Lemma SetData_run (idbo : indexDBObject) (size : Z) (w : World) :
  let s1 := match atomicFileWriter idbo with
            | Some w0 => snd (afw_Abandon w0 (store w))
            | None => store w
            end in
  let r := idb_TempFile (indexDB idbo) (hash idbo) 0 Go.MaxInt64 size s1 in
  SetData idbo size w =
    ((set_atomicFileWriter (fst (fst r)) idbo, fst r),
     {| store := snd r;
        calls := calls w
                 ++ match atomicFileWriter idbo with
                    | Some w0 => [CAbandon w0]
                    | None => []
                    end
                 ++ [CTempFile (indexDB idbo) (hash idbo) 0 Go.MaxInt64 size
                               (fst (fst r))] |}).
Proof.
  cbv zeta. unfold SetData, Abandon, TempFile.
  destruct (atomicFileWriter idbo) as [w0|]; run_M.
  - destruct (afw_Abandon w0 (store w)) as [aerr s1]. cbn [store calls snd].
    destruct (idb_TempFile _ _ _ _ _ s1) as [[got terr] s2]. cbn.
    rewrite <- app_assoc. reflexivity.
  - destruct (idb_TempFile _ _ _ _ _ (store w)) as [[got terr] s2]. reflexivity.
Qed.

Lemma Close_run (idbo : indexDBObject) (w : World) :
  Close idbo w =
    match atomicFileWriter idbo with
    | Some w0 =>
        ((set_atomicFileWriter None idbo, None),
         {| store := snd (afw_Abandon w0 (store w));
            calls := calls w ++ [CAbandon w0] |})
    | None => ((idbo, None), w)
    end.
Proof.
  unfold Close, Abandon. destruct (atomicFileWriter idbo) as [w0|]; [|reflexivity].
  run_M. destruct (afw_Abandon w0 (store w)). reflexivity.
Qed.

Lemma outstanding_app (a b : list Call) :
  outstanding (a ++ b) = outstanding a + outstanding b.
Proof. unfold outstanding. induction a as [|c a IH]; cbn; [reflexivity|]. lia. Qed.

Lemma accounted_refl (idbo : indexDBObject) (w : World) : accounted idbo w (idbo, w).
Proof. exists []. cbn. rewrite app_nil_r. split; [reflexivity|lia]. Qed.

Lemma accounted_trans (i1 i2 i3 : indexDBObject) (w1 w2 w3 : World) :
  accounted i1 w1 (i2, w2) -> accounted i2 w2 (i3, w3) -> accounted i1 w1 (i3, w3).
Proof.
  intros (m1 & C1 & O1) (m2 & C2 & O2). cbn [fst snd] in *.
  exists (m1 ++ m2). cbn [fst snd]. rewrite C2, C1, app_assoc, outstanding_app.
  split; [reflexivity|lia].
Qed.

Lemma load_accounted (idbo : indexDBObject) (w : World) :
  accounted idbo w (fst (fst (load idbo w)), snd (load idbo w)).
Proof.
  destruct (loaded idbo) eqn:Hl.
  - rewrite load_loaded by exact Hl. apply accounted_refl.
  - destruct (idb_Lookup (indexDB idbo) (hash idbo) 0 (store w))
      as [[[[[[ts del] mh] mb] p] lerr] s1] eqn:HL.
    destruct (json_Unmarshal mb (Some ∅)) as [m jerr] eqn:HJ.
    rewrite (load_unloaded idbo w ts del mh mb p lerr jerr s1 m HL HJ Hl).
    exists [CLookup (indexDB idbo) (hash idbo) 0].
    split; [reflexivity|].
    destruct lerr; [|destruct jerr]; cbn; unfold pending; cbn; lia.
Qed.

Lemma commit_accounted (idbo : indexDBObject) (md : Go.map_string_string)
    (del : bool) (w : World) :
  accounted idbo w (fst (fst (commit idbo md del w)), snd (commit idbo md del w)).
Proof.
  destruct (commit_calls idbo md del w) as [-> | (ts & mb & -> & HC)].
  - apply accounted_refl.
  - eexists. split; [exact HC|]. unfold pending. cbn.
    destruct (atomicFileWriter idbo); cbn; lia.
Qed.

Lemma SetData_accounted (idbo : indexDBObject) (size : Z) (w : World) :
  accounted idbo w (fst (fst (SetData idbo size w)), snd (SetData idbo size w)).
Proof.
  rewrite SetData_run. eexists. split; [reflexivity|].
  rewrite outstanding_app. unfold pending. cbn.
  destruct (atomicFileWriter idbo);
    destruct (fst (fst (idb_TempFile _ _ _ _ _ _))); cbn; lia.
Qed.

Lemma Close_accounted (idbo : indexDBObject) (w : World) :
  accounted idbo w (fst (fst (Close idbo w)), snd (Close idbo w)).
Proof.
  rewrite Close_run. destruct (atomicFileWriter idbo) as [w0|] eqn:Hw.
  - eexists. split; [reflexivity|]. unfold pending. cbn. rewrite Hw. cbn. lia.
  - apply accounted_refl.
Qed.

Lemma invoke_accounted (op : Op) (idbo : indexDBObject) (w : World) :
  accounted idbo w (invoke op idbo w).
Proof.
  destruct op; unfold invoke; run_M.
  - unfold Metadata. run_M. pose proof (load_accounted idbo w) as H.
    destruct (load idbo w) as [[i e] w']. destruct e; exact H.
  - unfold ContentLength. run_M. pose proof (load_accounted idbo w) as H.
    destruct (load idbo w) as [[i e] w']. destruct e; [exact H|].
    destruct (Go.strconv_ParseInt _) as [n []]; exact H.
  - apply accounted_refl.
  - unfold Exists. run_M. pose proof (load_accounted idbo w) as H.
    destruct (load idbo w) as [[i e] w']. destruct e; exact H.
  - pose proof (SetData_accounted idbo size w) as H.
    destruct (SetData idbo size w) as [[i r] w']. exact H.
  - pose proof (commit_accounted idbo metadata0 false w) as H. unfold Commit.
    destruct (commit idbo metadata0 false w) as [[i r] w']. exact H.
  - pose proof (commit_accounted idbo metadata0 false w) as H. unfold CommitMetadata.
    destruct (commit idbo metadata0 false w) as [[i r] w']. exact H.
  - pose proof (commit_accounted idbo metadata0 true w) as H. unfold Delete.
    destruct (commit idbo metadata0 true w) as [[i r] w']. exact H.
  - pose proof (Close_accounted idbo w) as H.
    destruct (Close idbo w) as [[i r] w']. exact H.
Qed.

Lemma run_accounted (ops : list Op) (idbo : indexDBObject) (w : World) :
  accounted idbo w (run ops idbo w).
Proof.
  revert idbo w. induction ops as [|op ops IH]; intros idbo w.
  - apply accounted_refl.
  - cbn [run]. run_M. pose proof (invoke_accounted op idbo w) as H1.
    destruct (invoke op idbo w) as [i1 w1]. specialize (IH i1 w1).
    destruct (run ops i1 w1) as [i2 w2]. exact (accounted_trans _ _ _ _ _ _ H1 IH).
Qed.

(** C8: a handle has one writer field, so at most one pending writer.
    [SetData] abandons the pending writer, if any, then asks for a
    temporary file and keeps what it is given as the pending writer;
    [Close] abandons the pending writer, if any, clears the field and
    returns no error, and a second [Close] does nothing; and whatever is
    called on a handle, in any order, the writers it was handed and has
    neither abandoned nor committed are as many as its pending writer,
    none or one. *)
Theorem one_pending_writer (idbo : indexDBObject) (w : World) :
  (forall size,
     let s1 := match atomicFileWriter idbo with
               | Some w0 => snd (afw_Abandon w0 (store w))
               | None => store w
               end in
     let r := idb_TempFile (indexDB idbo) (hash idbo) 0 Go.MaxInt64 size s1 in
     calls (snd (SetData idbo size w))
     = calls w
       ++ match atomicFileWriter idbo with
          | Some w0 => [CAbandon w0]
          | None => []
          end
       ++ [CTempFile (indexDB idbo) (hash idbo) 0 Go.MaxInt64 size (fst (fst r))]
     /\ atomicFileWriter (fst (fst (SetData idbo size w))) = fst (fst r)
     /\ snd (fst (SetData idbo size w)) = fst r)
  /\ (calls (snd (Close idbo w))
      = calls w ++ match atomicFileWriter idbo with
                   | Some w0 => [CAbandon w0]
                   | None => []
                   end
      /\ atomicFileWriter (fst (fst (Close idbo w))) = None
      /\ snd (fst (Close idbo w)) = None
      /\ Close (fst (fst (Close idbo w))) (snd (Close idbo w))
         = ((fst (fst (Close idbo w)), None), snd (Close idbo w)))
  /\ (forall ops,
       exists made,
         calls (snd (run ops idbo w)) = calls w ++ made
         /\ outstanding made = pending (fst (run ops idbo w)) - pending idbo
         /\ 0 <= pending (fst (run ops idbo w)) <= 1).
Proof.
  split; [|split].
  - intros size. cbv zeta. rewrite SetData_run. cbn. repeat split.
  - rewrite Close_run. destruct (atomicFileWriter idbo) as [w0|] eqn:Hw.
    + cbn [fst snd calls]. repeat split; rewrite Close_run; reflexivity.
    + cbn [fst snd]. rewrite app_nil_r. repeat split; try exact Hw;
        rewrite Close_run, Hw; reflexivity.
  - intros ops. destruct (run_accounted ops idbo w) as (made & HC & HO).
    exists made. repeat split; try assumption;
      unfold pending; destruct (notNil _); lia.
Qed.

End Handle.

(** ** The engine *)

Section EngineNew.
Context `{X : Externals}.

Ltac run_M := unfold mbind, M_bind, mret, M_ret, extern in *; cbn [store calls] in *.






(** C5: a device that is not among the engine's index databases makes
    [New] panic, with the device name, before anything else is done; and a
    handle that [New] returns is backed by the index database that the
    engine holds for the device. *)
Theorem New_unknown_device (idbe : indexDBEngine) (vars : Go.map_string_string)
    (needData : bool) (asyncWG : WaitGroup) (w : World) :
  (idbe_indexDBs idbe !! Go.index vars "device" = None ->
   New idbe vars needData asyncWG w = (Panics (Go.index vars "device"), w))
  /\ (forall idbo err w',
       New idbe vars needData asyncWG w = (Returns (Some idbo, err), w') ->
       idbe_indexDBs idbe !! Go.index vars "device" = Some (Some (indexDB idbo))).
Proof.
  split.
  - intros Hdev. unfold New. rewrite Hdev. reflexivity.
  - intros idbo err w'. unfold New.
    destruct (idbe_indexDBs idbe !! Go.index vars "device") as [[db|]|];
      cbn [default from_option id]; try discriminate.
    destruct (Go.strings_HasPrefix _ _).
    + unfold Now, List. run_M. destruct (time_Now (store w)) as [tm s1].
      destruct (ringPartOf _ _) as [v|[part|e]]; try discriminate.
      cbn [store calls]. destruct (idb_List db part s1) as [[lst [e|]] s2];
        [discriminate|].
      intros [= <- _ _]. reflexivity.
    + intros [= <- _ _]. reflexivity.
Qed.


End EngineNew.

(** ** The theorems at work on the small instance *)

Module Scenarios.
Import Demo.

(** A [Commit] with a pending writer and no [X-Timestamp]: the error comes
    back and the writer is still there. *)
Lemma commit_keeps_pending_writer :
  (forall g, Some (∅ : gmap string string) = Some g -> g !! "X-Timestamp" = None)
  /\ atomicFileWriter writing <> None
  /\ snd (fst (Commit writing (Some ∅) emptyWorld))
     = Some (errors_New "no timestamp in metadata")
  /\ atomicFileWriter (fst (fst (Commit writing (Some ∅) emptyWorld))) <> None.
Proof.
  split; [intros g [= <-]; apply lookup_empty|].
  split; [discriminate|]. split; [reflexivity|]. vm_compute. discriminate.
Qed.

Lemma commit_without_timestamp_witness :
  Commit writing (Some ∅) emptyWorld
  = ((writing, Some (errors_New "no timestamp in metadata")), emptyWorld)
  /\ Delete fresh None emptyWorld
     = ((fresh, Some (errors_New "no timestamp in metadata")), emptyWorld).
Proof.
  split.
  - apply (commit_without_timestamp writing (Some ∅) emptyWorld).
    + intros g [= <-]. apply lookup_empty.
    + discriminate.
  - apply (commit_without_timestamp fresh None emptyWorld). intros g [=].
Defined.

Lemma load_fails_exactly_witness :
  exists idbo' err,
    load fresh brokenWorld
    = ((idbo', err),
       {| store := store brokenWorld; calls := [CLookup db theHash 0] |})
    /\ err = Some (foreign "unexpected end of JSON input")
    /\ loaded idbo' = false.
Proof.
  destruct (load_fails_exactly fresh brokenWorld 7 true [] []
              "/srv/node/sda/objects/x" None
              (Some (foreign "unexpected end of JSON input"))
              (store brokenWorld) (Some ∅) eq_refl eq_refl) as [_ H].
  destruct (H eq_refl) as (idbo' & err & HL & He & _ & Hl & _).
  exists idbo', err. rewrite HL. subst err. repeat split. exact Hl.
Defined.

Lemma load_failure_not_atomic_witness :
  timestamp (fst (fst (load fresh brokenWorld))) = 7
  /\ deletion (fst (fst (load fresh brokenWorld))) = true
  /\ metadata (fst (fst (load fresh brokenWorld))) = Some ∅
  /\ loaded (fst (fst (load fresh brokenWorld))) = false.
Proof.
  destruct (load_failure_not_atomic fresh brokenWorld 7 true [] []
              "/srv/node/sda/objects/x" None
              (Some (foreign "unexpected end of JSON input"))
              (store brokenWorld) (Some ∅) eq_refl eq_refl eq_refl) as [_ H].
  destruct (H (foreign "unexpected end of JSON input") eq_refl eq_refl)
    as (_ & Ht & Hd & _ & _ & Hm & Hl).
  split; [exact Ht|]. split; [exact Hd|]. split; [apply Hm; reflexivity|exact Hl].
Defined.

Lemma ContentLength_sentinel_witness :
  snd (fst (ContentLength fresh goodWorld)) = 42
  /\ snd (fst (ContentLength fresh brokenWorld)) = -1
  /\ snd (fst (ContentLength fresh emptyWorld)) = -1.
Proof.
  destruct (ContentLength_sentinel fresh goodWorld) as (_ & H1 & _).
  destruct (ContentLength_sentinel fresh brokenWorld) as (_ & H2 & _).
  destruct (ContentLength_sentinel fresh emptyWorld) as (_ & H3 & _).
  rewrite H1, H2, H3. repeat split.
Defined.

Lemma New_unknown_device_witness :
  @New externals engine (Some {[ "device" := "sdb"; "obj" := "o" ]}) false tt emptyWorld
  = (Panics "sdb", emptyWorld).
Proof.
  destruct (@New_unknown_device externals engine
              (Some {[ "device" := "sdb"; "obj" := "o" ]}) false tt emptyWorld)
    as [H _].
  rewrite H; reflexivity.
Defined.



Lemma commit_without_writer_witness :
  calls (snd (Commit fresh (Some {[ "X-Timestamp" := "1500000000" ]}) emptyWorld))
  = [CCommit db None theHash 0 0 false [] []].
Proof.
  destruct (commit_without_writer fresh (Some {[ "X-Timestamp" := "1500000000" ]})
              emptyWorld [] None (store emptyWorld) eq_refl eq_refl eq_refl)
    as [H _].
  rewrite H. reflexivity.
Defined.

End Scenarios.

(** ** More on the handle *)

Section HandleMore.
Context `{X : Externals}.

Ltac run_M := unfold mbind, M_bind, mret, M_ret, extern in *; cbn [store calls] in *.

(** *** The commit, path by path *)

(** With a pending writer, or for a deletion, and a timestamp that parses:
    the index database is given the pending writer, the nanoseconds of
    the parsed time and the deletion flag, and whatever it answers the
    handle has no pending writer afterwards. *)
Theorem commit_forwards_parsed_time (idbo : indexDBObject)
    (md : Go.map_string_string) (del : bool) (w : World)
    (v : string) (tm : Time) (mb : bytes) (cerr : option error) (s1 : Store) :
  notNil (atomicFileWriter idbo) || del = true ->
  Go.index_ok md "X-Timestamp" = (v, true) ->
  ParseDate v = (tm, None) ->
  json_Marshal md = (mb, None) ->
  idb_Commit (indexDB idbo) (atomicFileWriter idbo) (hash idbo) 0 (time_UnixNano tm)
             del (MetadataHash md) mb (store w) = (cerr, s1) ->
  commit idbo md del w =
    ((set_atomicFileWriter None idbo, cerr),
     {| store := s1;
        calls := calls w ++ [CCommit (indexDB idbo) (atomicFileWriter idbo) (hash idbo)
                                     0 (time_UnixNano tm) del (MetadataHash md) mb] |})
  /\ atomicFileWriter (fst (fst (commit idbo md del w))) = None
  /\ snd (fst (commit idbo md del w)) = cerr.
Proof.
  intros Hg Hv Hp HM HC.
  assert (E : commit idbo md del w =
    ((set_atomicFileWriter None idbo, cerr),
     {| store := s1;
        calls := calls w ++ [CCommit (indexDB idbo) (atomicFileWriter idbo) (hash idbo)
                                     0 (time_UnixNano tm) del (MetadataHash md) mb] |})).
  { apply commit_forwards; [|exact HM|exact HC]. rewrite Hg. eauto. }
  rewrite E. repeat split.
Qed.

(** A timestamp that does not parse, or metadata that do not marshal:
    the error comes back as it is, the index database is not called and
    the handle keeps its pending writer. *)
Theorem commit_stops_before_the_database (idbo : indexDBObject)
    (md : Go.map_string_string) (del : bool) (w : World) (e : error) :
  (notNil (atomicFileWriter idbo) || del = true ->
   (exists v tm, Go.index_ok md "X-Timestamp" = (v, true) /\ ParseDate v = (tm, Some e)) ->
   commit idbo md del w = ((idbo, Some e), w))
  /\ (notNil (atomicFileWriter idbo) || del = false ->
      (exists mb, json_Marshal md = (mb, Some e)) ->
      commit idbo md del w = ((idbo, Some e), w))
  /\ (forall v tm,
      Go.index_ok md "X-Timestamp" = (v, true) -> ParseDate v = (tm, None) ->
      (exists mb, json_Marshal md = (mb, Some e)) ->
      commit idbo md del w = ((idbo, Some e), w)).
Proof.
  split; [|split].
  - intros Hg (v & tm & Hv & Hp). unfold commit. rewrite Hg, Hv. cbn [negb].
    rewrite Hp. reflexivity.
  - intros Hg (mb & HM). unfold commit. rewrite Hg, HM. reflexivity.
  - intros v tm Hv Hp (mb & HM). unfold commit.
    destruct (notNil (atomicFileWriter idbo) || del).
    + rewrite Hv. cbn [negb]. rewrite Hp, HM. reflexivity.
    + rewrite HM. reflexivity.
Qed.

(** *** Any run of a handle *)

Lemma run_app (a b : list Op) (idbo : indexDBObject) (w : World) :
  run (a ++ b) idbo w = run b (fst (run a idbo w)) (snd (run a idbo w)).
Proof.
  revert idbo w. induction a as [|op a IH]; intros idbo w; [reflexivity|].
  cbn [app run]. run_M. destruct (invoke op idbo w) as [i1 w1]. apply IH.
Qed.

Lemma follows_app (a b c : option Writer) (cs1 cs2 : list Call) :
  follows a cs1 b -> follows b cs2 c -> follows a (cs1 ++ cs2) c.
Proof.
  intros H1 H2. induction H1; cbn [app]; [exact H2| | | |];
    constructor; apply IHfollows; exact H2.
Qed.

Lemma orderly_refl (idbo : indexDBObject) (w : World) : orderly idbo w (idbo, w).
Proof.
  exists []. cbn [fst snd]. rewrite app_nil_r.
  repeat split; constructor.
Qed.

Lemma orderly_trans (i1 i2 i3 : indexDBObject) (w1 w2 w3 : World) :
  orderly i1 w1 (i2, w2) -> orderly i2 w2 (i3, w3) -> orderly i1 w1 (i3, w3).
Proof.
  intros (m1 & C1 & F1 & A1 & D1 & H1 & B1 & R1 & G1 & W1)
         (m2 & C2 & F2 & A2 & D2 & H2 & B2 & R2 & G2 & W2).
  cbn [fst snd] in *. exists (m1 ++ m2). cbn [fst snd].
  rewrite C2, C1, app_assoc. split; [reflexivity|].
  split; [exact (follows_app _ _ _ _ _ F1 F2)|].
  split; [apply Forall_app; split; [exact A1|]; rewrite <- D1, <- H1; exact A2|].
  repeat split; congruence.
Qed.

Lemma load_orderly (idbo : indexDBObject) (w : World) :
  orderly idbo w (fst (fst (load idbo w)), snd (load idbo w)).
Proof.
  destruct (loaded idbo) eqn:Hl.
  - rewrite load_loaded by exact Hl. apply orderly_refl.
  - destruct (idb_Lookup (indexDB idbo) (hash idbo) 0 (store w))
      as [[[[[[ts del] mh] mb] p] lerr] s1] eqn:HL.
    destruct (json_Unmarshal mb (Some ∅)) as [m jerr] eqn:HJ.
    rewrite (load_unloaded idbo w ts del mh mb p lerr jerr s1 m HL HJ Hl).
    exists [CLookup (indexDB idbo) (hash idbo) 0]. cbn [fst snd calls].
    split; [reflexivity|].
    split; [destruct lerr; [|destruct jerr]; cbn; repeat constructor|].
    split; [repeat constructor|].
    destruct lerr; [|destruct jerr]; repeat split.
Qed.

Lemma commit_orderly (idbo : indexDBObject) (md : Go.map_string_string)
    (del : bool) (w : World) :
  orderly idbo w (fst (fst (commit idbo md del w)), snd (commit idbo md del w)).
Proof.
  destruct (commit_calls idbo md del w) as [-> | (ts & mb & -> & HC)].
  - apply orderly_refl.
  - eexists. split; [exact HC|]. cbn [fst snd atomicFileWriter set_atomicFileWriter].
    split; [repeat constructor|]. split; [repeat constructor|]. repeat split.
Qed.

Lemma SetData_orderly (idbo : indexDBObject) (size : Z) (w : World) :
  orderly idbo w (fst (fst (SetData idbo size w)), snd (SetData idbo size w)).
Proof.
  rewrite SetData_run. eexists. split; [reflexivity|].
  cbn [fst snd atomicFileWriter set_atomicFileWriter].
  split; [destruct (atomicFileWriter idbo); cbn [app]; repeat constructor|].
  split; [destruct (atomicFileWriter idbo); cbn [app]; repeat constructor|].
  repeat split.
Qed.

Lemma Close_orderly (idbo : indexDBObject) (w : World) :
  orderly idbo w (fst (fst (Close idbo w)), snd (Close idbo w)).
Proof.
  rewrite Close_run. destruct (atomicFileWriter idbo) as [w0|] eqn:Hw.
  - eexists. split; [reflexivity|].
    cbn [fst snd atomicFileWriter set_atomicFileWriter]. rewrite Hw.
    split; [repeat constructor|]. split; [repeat constructor|]. repeat split.
  - apply orderly_refl.
Qed.

Lemma invoke_orderly (op : Op) (idbo : indexDBObject) (w : World) :
  orderly idbo w (invoke op idbo w).
Proof.
  destruct op; unfold invoke; run_M.
  - unfold Metadata. run_M. pose proof (load_orderly idbo w) as H.
    destruct (load idbo w) as [[i e] w']. destruct e; exact H.
  - unfold ContentLength. run_M. pose proof (load_orderly idbo w) as H.
    destruct (load idbo w) as [[i e] w']. destruct e; [exact H|].
    destruct (Go.strconv_ParseInt _) as [n []]; exact H.
  - apply orderly_refl.
  - unfold Exists. run_M. pose proof (load_orderly idbo w) as H.
    destruct (load idbo w) as [[i e] w']. destruct e; exact H.
  - pose proof (SetData_orderly idbo size w) as H.
    destruct (SetData idbo size w) as [[i r] w']. exact H.
  - pose proof (commit_orderly idbo metadata0 false w) as H. unfold Commit.
    destruct (commit idbo metadata0 false w) as [[i r] w']. exact H.
  - pose proof (commit_orderly idbo metadata0 false w) as H. unfold CommitMetadata.
    destruct (commit idbo metadata0 false w) as [[i r] w']. exact H.
  - pose proof (commit_orderly idbo metadata0 true w) as H. unfold Delete.
    destruct (commit idbo metadata0 true w) as [[i r] w']. exact H.
  - pose proof (Close_orderly idbo w) as H.
    destruct (Close idbo w) as [[i r] w']. exact H.
Qed.

Lemma run_orderly (ops : list Op) (idbo : indexDBObject) (w : World) :
  orderly idbo w (run ops idbo w).
Proof.
  revert idbo w. induction ops as [|op ops IH]; intros idbo w.
  - apply orderly_refl.
  - cbn [run]. run_M. pose proof (invoke_orderly op idbo w) as H1.
    destruct (invoke op idbo w) as [i1 w1]. specialize (IH i1 w1).
    destruct (run ops i1 w1) as [i2 w2]. exact (orderly_trans _ _ _ _ _ _ H1 IH).
Qed.

(** Whatever is called on a handle, and in whatever order, the handle asks
    for a temporary file only while it holds no writer, and abandons or
    commits no writer but the one it holds. *)
Theorem handle_keeps_writer_protocol (ops : list Op) (idbo : indexDBObject) (w : World) :
  exists made,
    calls (snd (run ops idbo w)) = calls w ++ made
    /\ follows (atomicFileWriter idbo) made (atomicFileWriter (fst (run ops idbo w))).
Proof.
  destruct (run_orderly ops idbo w) as (made & HC & HF & _). eauto.
Qed.

(** Whatever is called on a handle, its index database and hash stay the
    same, and every lookup, temporary file and commit it asks for is for
    that database and that hash, under the shard 0; it never lists a
    partition and never reads the clock. *)
Theorem handle_calls_its_own_record (ops : list Op) (idbo : indexDBObject) (w : World) :
  indexDB (fst (run ops idbo w)) = indexDB idbo
  /\ hash (fst (run ops idbo w)) = hash idbo
  /\ fakebytes (fst (run ops idbo w)) = fakebytes idbo
  /\ exists made,
       calls (snd (run ops idbo w)) = calls w ++ made
       /\ Forall (addressed (indexDB idbo) (hash idbo)) made.
Proof.
  destruct (run_orderly ops idbo w) as (made & HC & _ & HA & HD & HH & HB & _).
  repeat split; try assumption. eauto.
Qed.

Lemma frozen_refl (idbo : indexDBObject) (w : World) : frozen idbo w (idbo, w).
Proof.
  split; [cbn [fst]; symmetry; apply set_atomicFileWriter_same|].
  exists []. cbn [snd]. rewrite app_nil_r. split; reflexivity.
Qed.

Lemma frozen_loaded (i1 i2 : indexDBObject) (w1 w2 : World) :
  frozen i1 w1 (i2, w2) -> loaded i2 = loaded i1.
Proof. intros [E _]. cbn [fst] in E. rewrite E. reflexivity. Qed.

Lemma frozen_trans (i1 i2 i3 : indexDBObject) (w1 w2 w3 : World) :
  frozen i1 w1 (i2, w2) -> frozen i2 w2 (i3, w3) -> frozen i1 w1 (i3, w3).
Proof.
  intros [E1 (m1 & C1 & N1)] [E2 (m2 & C2 & N2)]. cbn [fst snd] in *. split.
  - cbn [fst]. rewrite E2 at 1. rewrite E1. reflexivity.
  - exists (m1 ++ m2). cbn [snd]. rewrite C2, C1, app_assoc, forallb_app, N1, N2.
    split; reflexivity.
Qed.

Lemma invoke_frozen (op : Op) (idbo : indexDBObject) (w : World) :
  loaded idbo = true -> frozen idbo w (invoke op idbo w).
Proof.
  intros Hl. destruct op; unfold invoke; run_M.
  - unfold Metadata. run_M. rewrite load_loaded by exact Hl. apply frozen_refl.
  - unfold ContentLength. run_M. rewrite load_loaded by exact Hl.
    destruct (Go.strconv_ParseInt _) as [n []]; apply frozen_refl.
  - apply frozen_refl.
  - unfold Exists. run_M. rewrite load_loaded by exact Hl. apply frozen_refl.
  - rewrite SetData_run. split; [reflexivity|]. eexists. split; [reflexivity|].
    destruct (atomicFileWriter idbo); reflexivity.
  - unfold Commit. destruct (commit_calls idbo metadata0 false w)
      as [E | (ts & mb & E & HC)].
    + rewrite E. apply frozen_refl.
    + destruct (commit idbo metadata0 false w) as [[i r] w']. cbn [fst snd] in *.
      subst i. split; [reflexivity|]. eexists. split; [exact HC|reflexivity].
  - unfold CommitMetadata. destruct (commit_calls idbo metadata0 false w)
      as [E | (ts & mb & E & HC)].
    + rewrite E. apply frozen_refl.
    + destruct (commit idbo metadata0 false w) as [[i r] w']. cbn [fst snd] in *.
      subst i. split; [reflexivity|]. eexists. split; [exact HC|reflexivity].
  - unfold Delete. destruct (commit_calls idbo metadata0 true w)
      as [E | (ts & mb & E & HC)].
    + rewrite E. apply frozen_refl.
    + destruct (commit idbo metadata0 true w) as [[i r] w']. cbn [fst snd] in *.
      subst i. split; [reflexivity|]. eexists. split; [exact HC|reflexivity].
  - rewrite Close_run. destruct (atomicFileWriter idbo) as [w0|] eqn:Hw.
    + split; [reflexivity|]. eexists. split; reflexivity.
    + apply frozen_refl.
Qed.

Lemma run_frozen (ops : list Op) (idbo : indexDBObject) (w : World) :
  loaded idbo = true -> frozen idbo w (run ops idbo w).
Proof.
  revert idbo w. induction ops as [|op ops IH]; intros idbo w Hl.
  - apply frozen_refl.
  - cbn [run]. run_M. pose proof (invoke_frozen op idbo w Hl) as H1.
    destruct (invoke op idbo w) as [i1 w1].
    assert (Hl1 : loaded i1 = true) by (rewrite (frozen_loaded _ _ _ _ H1); exact Hl).
    specialize (IH i1 w1 Hl1).
    destruct (run ops i1 w1) as [i2 w2]. exact (frozen_trans _ _ _ _ _ _ H1 IH).
Qed.

(** A loaded handle reads the index database no more: whatever is called
    on it, no lookup is made, it stays loaded, and its timestamp, deletion
    flag, metadata and path are what they were, also after its own
    commits and deletes.  Only the pending writer may differ. *)
Theorem loaded_handle_is_frozen (ops : list Op) (idbo : indexDBObject) (w : World) :
  loaded idbo = true ->
  let idbo' := fst (run ops idbo w) in
  loaded idbo' = true
  /\ timestamp idbo' = timestamp idbo
  /\ deletion idbo' = deletion idbo
  /\ metadata idbo' = metadata idbo
  /\ path idbo' = path idbo
  /\ (exists made, calls (snd (run ops idbo w)) = calls w ++ made
                   /\ forallb (fun c => negb (isLookup c)) made = true)
  /\ (forall md,
       snd (fst (Metadata (fst (run (ops ++ [OpCommit md]) idbo w))
                          (snd (run (ops ++ [OpCommit md]) idbo w))))
       = metadata idbo).
Proof.
  intros Hl idbo'. destruct (run_frozen ops idbo w Hl) as [E HM].
  fold idbo' in E. split; [rewrite E; exact Hl|].
  do 4 (split; [rewrite E; reflexivity|]). split; [exact HM|].
  intros md. pose proof (run_frozen (ops ++ [OpCommit md]) idbo w Hl) as [E2 _].
  unfold Metadata. run_M. rewrite load_loaded by (rewrite E2; exact Hl).
  cbn [fst snd]. rewrite E2. reflexivity.
Qed.

(** A handle that held no writer and is closed last leaves no writer
    behind: every writer it was handed has been abandoned or given to a
    commit, whatever was called before the [Close]. *)
Theorem close_releases_every_writer (ops : list Op) (idbo : indexDBObject) (w : World) :
  atomicFileWriter idbo = None ->
  let r := run (ops ++ [OpClose]) idbo w in
  atomicFileWriter (fst r) = None
  /\ exists made, calls (snd r) = calls w ++ made /\ outstanding made = 0.
Proof.
  intros Hw r.
  assert (Hnone : atomicFileWriter (fst r) = None).
  { subst r. rewrite run_app. cbn [run]. run_M. unfold invoke. run_M.
    rewrite Close_run. destruct (atomicFileWriter (fst (run ops idbo w))) eqn:E;
      [reflexivity|exact E]. }
  split; [exact Hnone|].
  destruct (run_accounted (ops ++ [OpClose]) idbo w) as (made & HC & HO).
  exists made. split; [exact HC|]. fold r in HO. unfold pending in HO.
  rewrite Hnone, Hw in HO. exact HO.
Qed.

(** [Exists] answers true for one kind of record only: one that is found,
    whose metadata decode and that is not a deletion.  A record whose
    metadata do not decode is reported as not existing, like a record that
    is not found and like a tombstone. *)
Theorem Exists_only_if_decoded (idbo : indexDBObject) (w : World)
    (ts : Z) (del : bool) (mh mb : bytes) (p : string)
    (lerr jerr : option error) (s1 : Store) (m : Go.map_string_string) :
  loaded idbo = false ->
  idb_Lookup (indexDB idbo) (hash idbo) 0 (store w) = ((ts, del, mh, mb, p, lerr), s1) ->
  json_Unmarshal mb (Some ∅) = (m, jerr) ->
  (snd (fst (Exists idbo w)) = true <-> lerr = None /\ jerr = None /\ del = false)
  /\ (snd (fst (Metadata idbo w)) = match lerr, jerr with
                                     | None, None => m
                                     | _, _ => None
                                     end).
Proof.
  intros Hl HL HJ. unfold Exists, Metadata. run_M.
  rewrite (load_unloaded idbo w ts del mh mb p lerr jerr s1 m HL HJ Hl).
  destruct lerr as [e|]; [|destruct jerr as [e|]]; cbn [fst snd].
  - split; [|reflexivity]. split; [discriminate|intros (H & _); discriminate H].
  - split; [|reflexivity]. split; [discriminate|intros (_ & H & _); discriminate H].
  - cbn. split; [|reflexivity]. destruct del; cbn; split; try discriminate; auto.
    intros (_ & _ & H); discriminate H.
Qed.

(** When [SetData] gets no writer, its error is returned and the handle
    holds none; a [Commit] made all the same is then a commit of metadata
    alone: it needs no [X-Timestamp], carries no writer and the timestamp
    0. *)
Theorem Commit_after_failed_SetData (idbo : indexDBObject) (size : Z) (w : World)
    (e : error) (s1 : Store) (md : Go.map_string_string) (mb : bytes) :
  atomicFileWriter idbo = None ->
  idb_TempFile (indexDB idbo) (hash idbo) 0 Go.MaxInt64 size (store w)
    = ((None, Some e), s1) ->
  json_Marshal md = (mb, None) ->
  let r := SetData idbo size w in
  snd (fst r) = (None, Some e)
  /\ atomicFileWriter (fst (fst r)) = None
  /\ calls (snd (Commit (fst (fst r)) md (snd r)))
     = calls w
       ++ [CTempFile (indexDB idbo) (hash idbo) 0 Go.MaxInt64 size None;
           CCommit (indexDB idbo) None (hash idbo) 0 0 false (MetadataHash md) mb].
Proof.
  intros Hw HT HM r. subst r. rewrite SetData_run. rewrite Hw, HT.
  cbn [fst snd app atomicFileWriter set_atomicFileWriter].
  split; [reflexivity|]. split; [reflexivity|].
  unfold Commit, commit, IndexDB_Commit.
  cbn [atomicFileWriter set_atomicFileWriter notNil orb]. rewrite HM. run_M.
  cbn [indexDB hash set_atomicFileWriter].
  destruct (idb_Commit _ _ _ _ _ _ _ _ _) as [cerr s2]. cbn [snd calls].
  rewrite <- app_assoc. reflexivity.
Qed.

End HandleMore.

(** ** Printing and parsing integers *)

From Stdlib Require DecimalPos.

Module RoundTrip.
Import Go GoFacts.

Lemma string_of_uint_digits (d : Decimal.uint) :
  Spec.all Spec.decimalDigit (NilEmpty.string_of_uint d) = true.
Proof.
  induction d; simpl NilEmpty.string_of_uint; [reflexivity| | | | | | | | | |];
    cbn [Spec.all]; rewrite IHd; reflexivity.
Qed.

Lemma decimalValue_of_uint_acc (d : Decimal.uint) (acc : positive) :
  Spec.decimalValue (NilEmpty.string_of_uint d) (Z.pos acc)
  = Z.pos (Pos.of_uint_acc d acc).
Proof.
  revert acc.
  induction d; intros acc; simpl NilEmpty.string_of_uint; [reflexivity| | | | | | | | | |];
    rewrite decimalValue_cons; cbn [Pos.of_uint_acc]; rewrite <- IHd; f_equal;
    match goal with |- context [Spec.place ?s ?c] =>
      let v := eval vm_compute in (Spec.place s c) in
      change (Spec.place s c) with v
    end; lia.
Qed.

Lemma decimalValue_of_uint (d : Decimal.uint) :
  Spec.decimalValue (NilEmpty.string_of_uint d) 0 = Z.of_N (Pos.of_uint d).
Proof.
  induction d; simpl NilEmpty.string_of_uint; [reflexivity| | | | | | | | | |];
    rewrite decimalValue_cons;
    match goal with |- context [Spec.place ?s ?c] =>
      let v := eval vm_compute in (Spec.place s c) in
      change (Spec.place s c) with v
    end;
    [exact IHd | ..];
    cbn [Pos.of_uint Z.of_N Z.mul Z.add];
    apply decimalValue_of_uint_acc.
Qed.

(** The digits of a positive number: no sign, one digit at least, and the
    number for value. *)
Lemma digits_of_pos (p : positive) :
  let ds := NilZero.string_of_uint (Pos.to_uint p) in
  ds <> EmptyString
  /\ Spec.all Spec.decimalDigit ds = true
  /\ Spec.decimalValue ds 0 = Z.pos p
  /\ Spec.unsignedPart ds = (false, ds).
Proof.
  cbv zeta.
  assert (E : NilZero.string_of_uint (Pos.to_uint p)
              = NilEmpty.string_of_uint (Pos.to_uint p)).
  { pose proof (DecimalPos.Unsigned.to_uint_nonnil p) as Hn.
    destruct (Pos.to_uint p); [contradiction| ..]; reflexivity. }
  rewrite E.
  pose proof (string_of_uint_digits (Pos.to_uint p)) as Hd.
  pose proof (decimalValue_of_uint (Pos.to_uint p)) as Hv.
  rewrite DecimalPos.Unsigned.of_to in Hv.
  assert (Hne : NilEmpty.string_of_uint (Pos.to_uint p) <> EmptyString).
  { pose proof (DecimalPos.Unsigned.to_uint_nonnil p) as Hn.
    destruct (Pos.to_uint p); [contradiction| ..]; discriminate. }
  repeat split; try assumption.
  destruct (NilEmpty.string_of_uint (Pos.to_uint p)) as [|c r]; [contradiction|].
  cbn [Spec.all] in Hd. apply andb_prop in Hd as [Hc _].
  unfold Spec.unsignedPart. clear -Hc.
  each_byte c; try discriminate Hc; reflexivity.
Qed.

Lemma Itoa_is_base10 (n : Z) :
  - 2 ^ 63 <= n <= 2 ^ 63 - 1 -> Spec.base10Int64 (strconv_Itoa n) = Some n.
Proof.
  intros Hn. unfold strconv_Itoa. destruct n as [|p|p].
  - reflexivity.
  - cbn [Z.to_int NilZero.string_of_int].
    destruct (digits_of_pos p) as (Hne & Hd & Hv & Hu).
    unfold Spec.base10Int64. rewrite Hu.
    destruct (NilZero.string_of_uint (Pos.to_uint p)) as [|c r] eqn:E;
      [contradiction|].
    rewrite Hd, Hv.
    destruct (Z.leb_spec (- 2 ^ 63) (Z.pos p)); [|lia].
    destruct (Z.leb_spec (Z.pos p) (2 ^ 63 - 1)); [|lia]. reflexivity.
  - cbn [Z.to_int NilZero.string_of_int].
    destruct (digits_of_pos p) as (Hne & Hd & Hv & Hu).
    unfold Spec.base10Int64.
    change (Spec.unsignedPart (String "-" (NilZero.string_of_uint (Pos.to_uint p))))
      with (true, NilZero.string_of_uint (Pos.to_uint p)).
    destruct (NilZero.string_of_uint (Pos.to_uint p)) as [|c r] eqn:E;
      [contradiction|].
    rewrite Hd, Hv.
    destruct (Z.leb_spec (- 2 ^ 63) (- Z.pos p)); [|lia].
    destruct (Z.leb_spec (- Z.pos p) (2 ^ 63 - 1)); [|lia]. reflexivity.
Qed.

(** What [strconv.Itoa] prints, [strconv.ParseInt] reads back: for every
    64-bit integer the decimal string parses, without an error, to the
    integer itself. *)
Theorem ParseInt_Itoa (n : Z) :
  - 2 ^ 63 <= n <= 2 ^ 63 - 1 ->
  Spec.base10Int64 (strconv_Itoa n) = Some n
  /\ strconv_ParseInt (strconv_Itoa n) = (n, None).
Proof.
  intros Hn. pose proof (Itoa_is_base10 n Hn) as HS.
  split; [exact HS|].
  pose proof (strconv_ParseInt_spec (strconv_Itoa n)) as HP.
  rewrite HS in HP. exact HP.
Qed.

Lemma ParseInt_Itoa_witness :
  strconv_ParseInt (strconv_Itoa (- 9223372036854775808))
  = (- 9223372036854775808, None)
  /\ strconv_ParseInt (strconv_Itoa 4) = (4, None).
Proof.
  split.
  - apply (ParseInt_Itoa (- 9223372036854775808)). lia.
  - apply (ParseInt_Itoa 4). lia.
Defined.

End RoundTrip.

(** ** More on [New] *)

Section NewMore.
Context `{X : Externals}.

Ltac run_M := unfold mbind, M_bind, mret, M_ret, extern in *; cbn [store calls] in *.

(** The debug path of [New], unrolled, with the answers of the clock, of
    the partition and of the listing named. *)
Lemma New_fakelist_run (idbe : indexDBEngine) (vars : Go.map_string_string)
    (needData : bool) (asyncWG : WaitGroup) (w : World) (db : IndexDB)
    (tm : Time) (s1 s2 : Store) (lst : list Item) (lerr : option error) :
  idbe_indexDBs idbe !! Go.index vars "device" = Some (Some db) ->
  Go.strings_HasPrefix (Go.index vars "obj") "fakelist" = true ->
  time_Now (store w) = (tm, s1) ->
  let hsh := Go.strings_ToLower unicode_ToLower
               (ObjHash vars (idbe_hashPathPrefix idbe) (idbe_hashPathSuffix idbe)) in
  New idbe vars needData asyncWG w =
    match ringPartOf db hsh with
    | Panics v => (Panics v, {| store := s1; calls := calls w ++ [CNow] |})
    | Returns (inr e) =>
        (Returns (None, Some e), {| store := s1; calls := calls w ++ [CNow] |})
    | Returns (inl part) =>
        (match snd (fst (idb_List db part s1)) with
         | Some e => Returns (None, Some e)
         | None =>
             Returns (Some {|
               fallocateReserve := idbe_fallocateReserve idbe;
               reclaimAge := idbe_reclaimAge idbe;
               asyncWG := asyncWG;
               indexDB := db;
               hash := hsh;
               loaded := true;
               timestamp := time_UnixNano tm;
               deletion := false;
               metadata := Some {[
                 "X-Timestamp" := CanonicalTimestampFromTime tm;
                 "Content-Length" :=
                   Go.strconv_Itoa
                     (Z.of_nat (length (list_byte_of_string
                        (fakelisting part (fst (fst (idb_List db part s1))))))) ]};
               path := "fakelist";
               atomicFileWriter := None;
               fakebytes := list_byte_of_string
                              (fakelisting part (fst (fst (idb_List db part s1)))) |},
               None)
         end,
         {| store := snd (idb_List db part s1);
            calls := calls w ++ [CNow; CList db part] |})
    end.
Proof.
  intros Hdev Hpre HN hsh. unfold New. rewrite Hdev.
  cbn [default from_option id]. rewrite Hpre. unfold Now, List. run_M.
  rewrite HN. fold hsh.
  destruct (ringPartOf db hsh) as [v|[part|e]]; try reflexivity.
  cbn [store calls]. destruct (idb_List db part s1) as [[l [e|]] s3];
    cbn [fst snd]; rewrite <- app_assoc; reflexivity.
Qed.

(** For an ordinary object name [New] is lazy: it asks nothing of the
    index database or of the clock, and returns an unloaded handle on the
    hash as [ObjHash] gives it, neither lowered nor checked for its length
    or its digits. *)
Theorem New_ordinary_is_lazy (idbe : indexDBEngine) (vars : Go.map_string_string)
    (needData : bool) (asyncWG : WaitGroup) (w : World) (db : IndexDB) :
  idbe_indexDBs idbe !! Go.index vars "device" = Some (Some db) ->
  Go.strings_HasPrefix (Go.index vars "obj") "fakelist" = false ->
  exists idbo,
    New idbe vars needData asyncWG w = (Returns (Some idbo, None), w)
    /\ indexDB idbo = db
    /\ hash idbo = ObjHash vars (idbe_hashPathPrefix idbe) (idbe_hashPathSuffix idbe)
    /\ loaded idbo = false
    /\ atomicFileWriter idbo = None
    /\ metadata idbo = None
    /\ fallocateReserve idbo = idbe_fallocateReserve idbe
    /\ reclaimAge idbo = idbe_reclaimAge idbe.
Proof.
  intros Hdev Hpre. unfold New. rewrite Hdev. cbn [default from_option id].
  rewrite Hpre. eexists. split; [reflexivity|]. repeat split.
Qed.

(** On the debug path a hash that is not 32 bytes long is refused after
    the clock was read and before the index database is asked; and when
    the index database cannot list the partition its error is returned as
    it is.  No handle is returned in either case. *)
Theorem New_fakelist_refusals (idbe : indexDBEngine) (vars : Go.map_string_string)
    (needData : bool) (asyncWG : WaitGroup) (w : World) (db : IndexDB) :
  idbe_indexDBs idbe !! Go.index vars "device" = Some (Some db) ->
  Go.strings_HasPrefix (Go.index vars "obj") "fakelist" = true ->
  let hsh := Go.strings_ToLower unicode_ToLower
               (ObjHash vars (idbe_hashPathPrefix idbe) (idbe_hashPathSuffix idbe)) in
  let s1 := snd (time_Now (store w)) in
  (Go.len hsh <> 32 ->
   New idbe vars needData asyncWG w =
     (Returns (None, Some (Errorf_hash_length hsh (Go.len hsh))),
      {| store := s1; calls := calls w ++ [CNow] |}))
  /\ (forall part e,
      ringPartOf db hsh = Returns (inl part) ->
      snd (fst (idb_List db part s1)) = Some e ->
      New idbe vars needData asyncWG w =
        (Returns (None, Some e),
         {| store := snd (idb_List db part s1);
            calls := calls w ++ [CNow; CList db part] |})).
Proof.
  intros Hdev Hpre hsh s1. subst s1.
  destruct (time_Now (store w)) as [tm s1] eqn:HN. cbn [snd].
  pose proof (New_fakelist_run idbe vars needData asyncWG w db tm s1 s1 [] None
                Hdev Hpre HN) as E.
  cbv zeta in E. fold hsh in E. split.
  - intros Hlen. rewrite E.
    assert (ringPartOf db hsh = Returns (inr (Errorf_hash_length hsh (Go.len hsh)))) as ->;
      [|reflexivity].
    unfold ringPartOf. destruct (Z.eqb_spec (Go.len hsh) 32); [contradiction|reflexivity].
  - intros part e Hp HL. rewrite E, Hp, HL. reflexivity.
Qed.

(** The handle of the debug path answers from what [New] put in it: it
    exists, its content length is the length of the listing in bytes, its
    metadata are the two entries, and none of this asks the index database
    anything. *)
Theorem fakelist_handle_reads (idbe : indexDBEngine) (vars : Go.map_string_string)
    (needData : bool) (asyncWG : WaitGroup) (w w1 : World) (idbo : indexDBObject) :
  Go.strings_HasPrefix (Go.index vars "obj") "fakelist" = true ->
  New idbe vars needData asyncWG w = (Returns (Some idbo, None), w1) ->
  Z.of_nat (length (fakebytes idbo)) <= Go.MaxInt64 ->
  Exists idbo w1 = ((idbo, true), w1)
  /\ ContentLength idbo w1 = ((idbo, Z.of_nat (length (fakebytes idbo))), w1)
  /\ Metadata idbo w1 = ((idbo, metadata idbo), w1)
  /\ Go.index (metadata idbo) "Content-Length"
     = Go.strconv_Itoa (Z.of_nat (length (fakebytes idbo))).
Proof.
  intros Hpre HNew Hlen.
  destruct (idbe_indexDBs idbe !! Go.index vars "device") as [[db|]|] eqn:Hdev;
    try (unfold New in HNew; rewrite Hdev in HNew; discriminate HNew).
  destruct (time_Now (store w)) as [tm s1] eqn:HN.
  rewrite (New_fakelist_run idbe vars needData asyncWG w db tm s1 s1 [] None
             Hdev Hpre HN) in HNew.
  destruct (ringPartOf db _) as [v|[part|e]]; try discriminate HNew.
  destruct (snd (fst (idb_List db part s1))) as [e|]; [discriminate HNew|].
  injection HNew as Hi Hw. subst idbo.
  cbn [fakebytes] in Hlen.
  set (fb := list_byte_of_string _) in *.
  assert (Hcl : Go.index (Some ({[ "X-Timestamp" := CanonicalTimestampFromTime tm;
                                   "Content-Length" :=
                                     Go.strconv_Itoa (Z.of_nat (length fb)) ]}
                                 : gmap string string)) "Content-Length"
                = Go.strconv_Itoa (Z.of_nat (length fb))).
  { unfold Go.index, Go.index_ok.
    rewrite lookup_insert_ne by discriminate. rewrite lookup_singleton_eq. reflexivity. }
  unfold Exists, ContentLength, Metadata. run_M.
  rewrite !load_loaded by reflexivity.
  cbn [metadata deletion negb fakebytes]. rewrite Hcl.
  pose proof (GoFacts.strconv_ParseInt_spec
                (Go.strconv_Itoa (Z.of_nat (length fb)))) as HP.
  rewrite RoundTrip.Itoa_is_base10 in HP by (unfold Go.MaxInt64 in Hlen; lia).
  rewrite HP. repeat split.
Qed.

End NewMore.

(** ** Reading the payload *)

Section PayloadFacts.
Context `{F : Files}.

Ltac run_F :=
  unfold fbind, fret, lift, fextern, Open, Seek, File_Close, IoCopy, CommonCopy, CopyN;
  cbn [world fcalls store calls fst snd].

Lemma openFiles_app (a b : list FileCall) :
  openFiles (a ++ b) = openFiles a + openFiles b.
Proof. unfold openFiles. induction a as [|c a IH]; cbn; [reflexivity|]. lia. Qed.

(** [Copy] on a loaded handle whose path is [fakelist]: the bytes come
    from the buffer in the handle; no file is opened and the index
    database is not asked.  One destination goes through [io.Copy], any
    other number of them, none included, through [common.Copy]. *)
Theorem Copy_synthetic_reads_buffer (idbo : indexDBObject) (dsts : list Sink)
    (fw : FWorld) :
  loaded idbo = true ->
  path idbo = "fakelist"%string ->
  let src := FromBuffer (fakebytes idbo) in
  let copy := match dsts with
              | [dst] => io_Copy dst src
              | _ => common_Copy src dsts
              end (store (world fw)) in
  Copy idbo dsts fw =
    ((idbo, fst copy),
     {| world := {| store := snd copy; calls := calls (world fw) |};
        fcalls := fcalls fw ++ [match dsts with
                                | [dst] => FIoCopy dst src
                                | _ => FCommonCopy src dsts
                                end] |}).
Proof.
  intros Hl Hp. cbv zeta. unfold Copy. run_F.
  rewrite load_loaded by exact Hl. cbn [fst snd]. rewrite Hp.
  change (String.eqb "fakelist" "fakelist") with true. run_F.
  destruct dsts as [|d [|d2 ds]]; run_F;
    first [destruct (io_Copy _ _ _) as [[n e] s2]
          | destruct (common_Copy _ _ _) as [[n e] s2]]; reflexivity.
Qed.

(** [Copy] from a file: the file is opened, copied from and closed, in
    that order and whatever the copy returned; the error of the copy wins
    over the error of the close, and the byte count is the copy's own. *)
Theorem Copy_file_result (idbo : indexDBObject) (dsts : list Sink) (fw : FWorld)
    (f : File) (s1 s2 s3 : Store) (written : Z) (cerr xerr : option error) :
  loaded idbo = true ->
  String.eqb (path idbo) "fakelist" = false ->
  os_Open (path idbo) (store (world fw)) = (inl f, s1) ->
  match dsts with
  | [dst] => io_Copy dst (FromFile f)
  | _ => common_Copy (FromFile f) dsts
  end s1 = ((written, cerr), s2) ->
  file_Close f s2 = (xerr, s3) ->
  Copy idbo dsts fw =
    ((idbo, (written, match cerr with Some e => Some e | None => xerr end)),
     {| world := {| store := s3; calls := calls (world fw) |};
        fcalls := fcalls fw
                  ++ [FOpen (path idbo) (inl f);
                      match dsts with
                      | [dst] => FIoCopy dst (FromFile f)
                      | _ => FCommonCopy (FromFile f) dsts
                      end;
                      FClose f] |}).
Proof.
  intros Hl Hp HO HC HX. unfold Copy. run_F.
  rewrite load_loaded by exact Hl. cbn [fst snd]. rewrite Hp. run_F.
  rewrite HO. run_F.
  destruct dsts as [|d [|d2 ds]]; run_F; rewrite HC; run_F;
    destruct cerr; run_F; rewrite HX; rewrite <- !app_assoc; reflexivity.
Qed.

(** [Copy] that fails before the copying, on a handle loaded or not: when
    the load fails nothing is done on files at all; and when the load
    succeeds, or has nothing to do, and the file at the path that the
    handle then has cannot be opened, nothing is copied and nothing is
    closed.  Zero bytes and the error are returned. *)
Theorem Copy_early_failure (idbo : indexDBObject) (dsts : list Sink) (fw : FWorld)
    (e : error) :
  let attempt := load idbo (world fw) in
  let idbo' := fst (fst attempt) in
  let w' := snd attempt in
  (snd (fst attempt) = Some e ->
   Copy idbo dsts fw = ((idbo', (0, Some e)), {| world := w'; fcalls := fcalls fw |}))
  /\ (forall s1,
      snd (fst attempt) = None ->
      String.eqb (path idbo') "fakelist" = false ->
      os_Open (path idbo') (store w') = (inr e, s1) ->
      Copy idbo dsts fw =
        ((idbo', (0, Some e)),
         {| world := {| store := s1; calls := calls w' |};
            fcalls := fcalls fw ++ [FOpen (path idbo') (inr e)] |})).
Proof.
  cbv zeta. split.
  - intros He. unfold Copy. run_F.
    destruct (load idbo (world fw)) as [[i err] w1]. cbn [fst snd] in *.
    subst err. reflexivity.
  - intros s1 He Hp HO. unfold Copy. run_F.
    destruct (load idbo (world fw)) as [[i err] w1]. cbn [fst snd] in *.
    subst err. rewrite Hp. run_F. rewrite HO. reflexivity.
Qed.

(** [CopyRange] opens the file at the handle's path, whatever the path
    is, the name [fakelist] of a synthetic handle included, and never
    reads the buffer.  It seeks to [start] from the beginning of the file
    and asks for [end - start] bytes; the file is closed when the seek
    fails as well as after the copy. *)
Theorem CopyRange_file (idbo : indexDBObject) (dst : Sink) (start end_ : Z)
    (fw : FWorld) (f : File) (s1 s2 : Store) (pos : Z) (serr : option error) :
  loaded idbo = true ->
  os_Open (path idbo) (store (world fw)) = (inl f, s1) ->
  file_Seek f start 0 s1 = ((pos, serr), s2) ->
  (forall e, serr = Some e ->
     CopyRange idbo dst start end_ fw =
       ((idbo, (0, Some e)),
        {| world := {| store := snd (file_Close f s2); calls := calls (world fw) |};
           fcalls := fcalls fw
                     ++ [FOpen (path idbo) (inl f); FSeek f start 0; FClose f] |}))
  /\ (serr = None ->
      let n := Go.int64 (end_ - start) in
      let copied := common_CopyN f n dst s2 in
      let closed := file_Close f (snd copied) in
      CopyRange idbo dst start end_ fw =
        ((idbo, (fst (fst copied),
                 match snd (fst copied) with
                 | Some e => Some e
                 | None => fst closed
                 end)),
         {| world := {| store := snd closed; calls := calls (world fw) |};
            fcalls := fcalls fw
                      ++ [FOpen (path idbo) (inl f); FSeek f start 0;
                          FCopyN f n dst; FClose f] |})).
Proof.
  intros Hl HO HS. split.
  - intros e ->. unfold CopyRange, SEEK_SET. run_F.
    rewrite load_loaded by exact Hl. run_F. rewrite HO. run_F.
    rewrite HS. run_F. destruct (file_Close f s2) as [x s3]. cbn [snd].
    rewrite <- !app_assoc. reflexivity.
  - intros ->. cbv zeta. unfold CopyRange, SEEK_SET. run_F.
    rewrite load_loaded by exact Hl. run_F. rewrite HO. run_F.
    rewrite HS. run_F.
    destruct (common_CopyN f (Go.int64 (end_ - start)) dst s2) as [[n [e|]] s3];
      run_F; destruct (file_Close f s3) as [x s4]; cbn [fst snd];
      rewrite <- !app_assoc; reflexivity.
Qed.

(** Neither [Copy] nor [CopyRange] leaves a file open: over the calls that
    either makes on files, as many files are closed as were opened,
    whatever the lookup, the open, the seek and the copy return. *)
Theorem payload_files_are_closed (idbo : indexDBObject) (fw : FWorld) :
  (forall dsts,
     exists made, fcalls (snd (Copy idbo dsts fw)) = fcalls fw ++ made
                  /\ openFiles made = 0)
  /\ (forall dst start end_,
     exists made, fcalls (snd (CopyRange idbo dst start end_ fw)) = fcalls fw ++ made
                  /\ openFiles made = 0).
Proof.
  split.
  - intros dsts. unfold Copy. run_F.
    destruct (load idbo (world fw)) as [[i [e|]] w1]; run_F.
    { exists []. rewrite app_nil_r. split; reflexivity. }
    destruct (String.eqb (path i) "fakelist"); run_F.
    + destruct dsts as [|d [|d2 ds]]; run_F;
        first [destruct (io_Copy _ _ _) as [[n e] s2]
              | destruct (common_Copy _ _ _) as [[n e] s2]]; cbn [fst snd fcalls];
        eexists; (split; [reflexivity|reflexivity]).
    + destruct (os_Open (path i) (store w1)) as [[f|e] s1]; run_F.
      * destruct dsts as [|d [|d2 ds]]; run_F;
          first [destruct (io_Copy _ _ _) as [[n [e|]] s2]
                | destruct (common_Copy _ _ _) as [[n [e|]] s2]]; run_F;
          destruct (file_Close f s2) as [x s3]; cbn [fst snd fcalls];
          rewrite <- !app_assoc; eexists; (split; [reflexivity|reflexivity]).
      * eexists; (split; [reflexivity|reflexivity]).
  - intros dst start end_. unfold CopyRange. run_F.
    destruct (load idbo (world fw)) as [[i [e|]] w1]; run_F.
    { exists []. rewrite app_nil_r. split; reflexivity. }
    destruct (os_Open (path i) (store w1)) as [[f|e] s1]; run_F;
      [|eexists; (split; [reflexivity|reflexivity])].
    destruct (file_Seek f start SEEK_SET s1) as [[p [e|]] s2]; run_F.
    + destruct (file_Close f s2) as [x s3]. cbn [fst snd fcalls].
      rewrite <- !app_assoc. eexists; (split; [reflexivity|reflexivity]).
    + destruct (common_CopyN f (Go.int64 (end_ - start)) dst s2) as [[n [e|]] s3];
        run_F; destruct (file_Close f s3) as [x s4]; cbn [fst snd fcalls];
        rewrite <- !app_assoc; eexists; (split; [reflexivity|reflexivity]).
Qed.

End PayloadFacts.

(** ** Building the engine *)

Module BitsFacts.
Import GoBits.

Lemma len8tab_spec (x : Z) :
  0 <= x < 256 ->
  nth (Z.to_nat x) len8tab 0 = if x =? 0 then 0 else Z.log2 x + 1.
Proof.
  intros Hx.
  assert (H : forallb (fun i => nth i len8tab 0
                         =? (if Z.of_nat i =? 0 then 0 else Z.log2 (Z.of_nat i) + 1))
                      (seq 0 256) = true) by (vm_compute; reflexivity).
  rewrite forallb_forall in H.
  specialize (H (Z.to_nat x)). rewrite Z2Nat.id in H by lia.
  apply Z.eqb_eq, H, in_seq. lia.
Qed.

Lemma log2_shiftr_ge (x k : Z) :
  0 <= k -> 2 ^ k <= x -> Z.log2 (Z.shiftr x k) = Z.log2 x - k /\ 0 < Z.shiftr x k.
Proof.
  intros Hk Hx. assert (0 < 2 ^ k) by (apply Z.pow_pos_nonneg; lia).
  assert (Hlog : k <= Z.log2 x) by (apply Z.log2_le_pow2; lia).
  rewrite Z.log2_shiftr by lia. split; [lia|].
  rewrite Z.shiftr_div_pow2 by lia. apply Z.div_str_pos. lia.
Qed.

Lemma shiftr_below (x k m : Z) :
  0 <= k -> 0 <= m -> 0 <= x < 2 ^ (k + m) -> Z.shiftr x k < 2 ^ m.
Proof.
  intros Hk Hm Hx. rewrite Z.shiftr_div_pow2 by lia.
  assert (0 < 2 ^ k) by (apply Z.pow_pos_nonneg; lia).
  apply Z.div_lt_upper_bound; [lia|]. rewrite <- Z.pow_add_r by lia. lia.
Qed.

Lemma bits_Len64_log2 (x : Z) :
  0 <= x < 2 ^ 64 -> bits_Len64 x = if x =? 0 then 0 else Z.log2 x + 1.
Proof.
  intros Hx. unfold bits_Len64.
  destruct (Z.leb_spec (2 ^ 32) x) as [H32|H32].
  - destruct (log2_shiftr_ge x 32 ltac:(lia) H32) as [L1 P1].
    pose proof (shiftr_below x 32 32 ltac:(lia) ltac:(lia) ltac:(cbn; lia)) as B1.
    set (x1 := Z.shiftr x 32) in *.
    destruct (Z.leb_spec (2 ^ 16) x1) as [H16|H16].
    + destruct (log2_shiftr_ge x1 16 ltac:(lia) H16) as [L2 P2].
      pose proof (shiftr_below x1 16 16 ltac:(lia) ltac:(lia) ltac:(cbn; lia)) as B2.
      set (x2 := Z.shiftr x1 16) in *.
      destruct (Z.leb_spec (2 ^ 8) x2) as [H8|H8].
      * destruct (log2_shiftr_ge x2 8 ltac:(lia) H8) as [L3 P3].
        pose proof (shiftr_below x2 8 8 ltac:(lia) ltac:(lia) ltac:(cbn; lia)) as B3.
        rewrite len8tab_spec by lia.
        destruct (Z.eqb_spec (Z.shiftr x2 8) 0); [lia|].
        destruct (Z.eqb_spec x 0); lia.
      * rewrite len8tab_spec by lia.
        destruct (Z.eqb_spec x2 0); [lia|]. destruct (Z.eqb_spec x 0); lia.
    + destruct (Z.leb_spec (2 ^ 8) x1) as [H8|H8].
      * destruct (log2_shiftr_ge x1 8 ltac:(lia) H8) as [L3 P3].
        pose proof (shiftr_below x1 8 8 ltac:(lia) ltac:(lia) ltac:(cbn; lia)) as B3.
        rewrite len8tab_spec by lia.
        destruct (Z.eqb_spec (Z.shiftr x1 8) 0); [lia|].
        destruct (Z.eqb_spec x 0); lia.
      * rewrite len8tab_spec by lia.
        destruct (Z.eqb_spec x1 0); [lia|]. destruct (Z.eqb_spec x 0); lia.
  - destruct (Z.leb_spec (2 ^ 16) x) as [H16|H16].
    + destruct (log2_shiftr_ge x 16 ltac:(lia) H16) as [L2 P2].
      pose proof (shiftr_below x 16 16 ltac:(lia) ltac:(lia) ltac:(cbn; lia)) as B2.
      set (x2 := Z.shiftr x 16) in *.
      destruct (Z.leb_spec (2 ^ 8) x2) as [H8|H8].
      * destruct (log2_shiftr_ge x2 8 ltac:(lia) H8) as [L3 P3].
        pose proof (shiftr_below x2 8 8 ltac:(lia) ltac:(lia) ltac:(cbn; lia)) as B3.
        rewrite len8tab_spec by lia.
        destruct (Z.eqb_spec (Z.shiftr x2 8) 0); [lia|].
        destruct (Z.eqb_spec x 0); lia.
      * rewrite len8tab_spec by lia.
        destruct (Z.eqb_spec x2 0); [lia|]. destruct (Z.eqb_spec x 0); lia.
    + destruct (Z.leb_spec (2 ^ 8) x) as [H8|H8].
      * destruct (log2_shiftr_ge x 8 ltac:(lia) H8) as [L3 P3].
        pose proof (shiftr_below x 8 8 ltac:(lia) ltac:(lia) ltac:(cbn; lia)) as B3.
        rewrite len8tab_spec by lia.
        destruct (Z.eqb_spec (Z.shiftr x 8) 0); [lia|].
        destruct (Z.eqb_spec x 0); lia.
      * rewrite len8tab_spec by lia. reflexivity.
Qed.

(** [bits.Len64] is the number of bits of its argument: 0 for 0, and for
    a count between [2^k] and [2^(k+1)], [2^k] included, it is [k + 1].  A
    ring of [2^k] partitions is thus given the partition power [k + 1]. *)
Theorem bits_Len64_is_bit_length (x k : Z) :
  0 <= k < 64 -> 2 ^ k <= x < 2 ^ (k + 1) ->
  bits_Len64 x = k + 1 /\ bits_Len64 (2 ^ k) = k + 1 /\ bits_Len64 0 = 0.
Proof.
  intros Hk Hx.
  assert (0 < 2 ^ k) by (apply Z.pow_pos_nonneg; lia).
  assert (2 ^ (k + 1) <= 2 ^ 64) by (apply Z.pow_le_mono_r; lia).
  assert (2 ^ k < 2 ^ (k + 1)) by (apply Z.pow_lt_mono_r; lia).
  split; [|split].
  - rewrite bits_Len64_log2 by lia. destruct (Z.eqb_spec x 0); [lia|].
    rewrite (Z.log2_unique x k); lia.
  - rewrite bits_Len64_log2 by lia. destruct (Z.eqb_spec (2 ^ k) 0); [lia|].
    rewrite Z.log2_pow2; lia.
  - reflexivity.
Qed.

Lemma bits_Len64_is_bit_length_witness :
  bits_Len64 1024 = 11 /\ bits_Len64 1023 = 10.
Proof.
  split.
  - apply (bits_Len64_is_bit_length 1024 10); lia.
  - apply (bits_Len64_is_bit_length 1023 9); lia.
Defined.

End BitsFacts.

Section ConstructorFacts.
Context `{B : Boot}.

Ltac run_B := unfold bbind, bret, bextern; cbn [bstore bcalls fst snd].

Lemma policy_number_ok (v : string) (dflt n : Z) (mk : string -> Go.numError -> ctorError) :
  (v = EmptyString /\ n = dflt) \/ Spec.base10Int64 v = Some n ->
  (if negb (String.eqb v EmptyString)
   then let '(i, err) := Go.strconv_ParseInt v in
        match err with
        | Some e => inr (mk v e)
        | None => inl i
        end
   else inl dflt) = inl n.
Proof.
  intros [[-> ->] | Hv]; [reflexivity|].
  destruct v as [|c r]; [discriminate Hv|]. cbn [String.eqb negb].
  pose proof (GoFacts.strconv_ParseInt_spec (String c r)) as HP.
  rewrite Hv in HP. rewrite HP. reflexivity.
Qed.

Lemma policy_number_bad (v : string) (dflt : Z) (mk : string -> Go.numError -> ctorError) :
  v <> EmptyString -> Spec.base10Int64 v = None ->
  exists cause,
    (if negb (String.eqb v EmptyString)
     then let '(i, err) := Go.strconv_ParseInt v in
          match err with
          | Some e => inr (mk v e)
          | None => inl i
          end
     else inl dflt) = (inr (mk v cause) : Z + ctorError).
Proof.
  intros Hne Hv. destruct v as [|c r]; [contradiction|]. cbn [String.eqb negb].
  pose proof (GoFacts.strconv_ParseInt_spec (String c r)) as HP.
  rewrite Hv in HP. destruct HP as (i & e & ->). eauto.
Qed.

(** The loop: its calls are [os.Stat] and [NewIndexDB] only, every
    [NewIndexDB] is given the numbers worked out before the loop, and the
    keys it adds are names of the directory. *)
Lemma scanDevices_spec (policy : Policy) (devicespath dbspath : string)
    (rpp dpp sd : Z) (dirs : list string)
    (m0 : gmap string (option IndexDB)) (bw : BWorld) :
  let r := scanDevices policy devicespath dbspath rpp dpp sd dirs m0 bw in
  exists made,
    bcalls (snd r) = bcalls bw ++ made
    /\ forallb scanCall made = true
    /\ Forall (configured rpp dpp sd (negb (String.eqb dbspath EmptyString))) made
    /\ (forall m, fst r = inl m -> dom m ⊆ dom m0 ∪ list_to_set dirs).
Proof.
  cbv zeta. revert m0 bw. induction dirs as [|dirname rest IH]; intros m0 bw.
  - exists []. cbn [scanDevices]. run_B. rewrite app_nil_r.
    repeat split; [constructor|]. intros m [= <-] x Hx.
    apply elem_of_union. left. exact Hx.
  - cbn [scanDevices]. run_B.
    destruct (os_Stat (path_Join [devicespath; dirname]) (bstore bw)) as [[fi|e] s1].
    2:{ eexists. split; [reflexivity|]. split; [reflexivity|].
        split; [repeat constructor|]. intros m [=]. }
    destruct (IsDir fi).
    + cbn [bstore bcalls].
      destruct (NewIndexDB _ _ _ rpp dpp sd s1) as [[db [e|]] s2]; cbn [bstore bcalls].
      * eexists. rewrite <- app_assoc. split; [reflexivity|]. split; [reflexivity|].
        split; [|intros m [=]].
        repeat constructor. intros Hsep. destruct (String.eqb dbspath EmptyString);
          [reflexivity|discriminate Hsep].
      * match goal with |- context [scanDevices _ _ _ _ _ _ rest ?m ?w] =>
          destruct (IH m w) as (made & HC & HS & HF & HD) end.
        cbn [bcalls] in HC. eexists.
        split; [rewrite HC, <- !app_assoc; reflexivity|].
        cbn [app forallb scanCall andb].
        split; [exact HS|]. split.
        -- constructor; [exact I|]. constructor; [|exact HF].
           repeat split. intros Hsep. destruct (String.eqb dbspath EmptyString);
             [reflexivity|discriminate Hsep].
        -- intros m Hm. specialize (HD m Hm). rewrite dom_insert in HD.
           cbn [list_to_set]. intros x Hx. apply HD in Hx.
           rewrite !elem_of_union in *. tauto.
    + match goal with |- context [scanDevices _ _ _ _ _ _ rest ?m ?w] =>
        destruct (IH m w) as (made & HC & HS & HF & HD) end.
      cbn [bcalls] in HC. eexists.
      split; [rewrite HC, <- !app_assoc; reflexivity|].
      cbn [app forallb scanCall andb].
      split; [exact HS|]. split; [constructor; [exact I|exact HF]|].
      intros m Hm. specialize (HD m Hm). cbn [list_to_set].
      intros x Hx. apply HD in Hx. rewrite !elem_of_union in *. tauto.
Qed.

(** The constructor up to the opening of the devices directory, with the
    answers of the configuration and of the ring named. *)
Lemma constructor_run (config : Config) (policy : Policy) (bw : BWorld)
    (pre suf : string) (s1 s2 s3 : Store) (ringg : Ring) (dpp sd : Z) (d : Dir) :
  conf_GetHashPrefixAndSuffix (bstore bw) = ((pre, suf, None), s1) ->
  ring_GetRing "object" pre suf (policy_Index policy) s1 = (inl ringg, s2) ->
  (Go.index (policy_Config policy) "db_part_power" = EmptyString /\ dpp = 0)
  \/ Spec.base10Int64 (Go.index (policy_Config policy) "db_part_power") = Some dpp ->
  (Go.index (policy_Config policy) "subdirs" = EmptyString /\ sd = 64)
  \/ Spec.base10Int64 (Go.index (policy_Config policy) "subdirs") = Some sd ->
  let devicespath := config_GetDefault config "app:object-server" "devices" "/srv/node" in
  let dbspath := config_GetDefault config "app:object-server" "dbs" EmptyString in
  dir_Open devicespath s2 = (inl d, s3) ->
  let read := dir_Readdirnames d (-1) s3 in
  let closed := dir_Close d (snd read) in
  let bw5 := {| bstore := snd closed;
                bcalls := bcalls bw
                          ++ [BHashPrefixAndSuffix;
                              BGetRing "object" pre suf (policy_Index policy);
                              BOpen devicespath; BReaddirnames d (-1); BClose d] |} in
  indexDBEngineConstructor config policy bw =
    match snd (fst read) with
    | Some e => ((None, Some (passed e)), bw5)
    | None =>
        let scanned := scanDevices policy devicespath dbspath
                         (GoBits.bits_Len64 (PartitionCount ringg)) dpp sd
                         (fst (fst read)) ∅ bw5 in
        (match fst scanned with
         | inr e => (None, Some (passed e))
         | inl indexDBs =>
             (Some {|
                idbe_devicespath := devicespath;
                idbe_hashPathPrefix := pre;
                idbe_hashPathSuffix := suf;
                idbe_fallocateReserve :=
                  config_GetInt config "app:object-server" "fallocate_reserve" 0;
                idbe_reclaimAge :=
                  config_GetInt config "app:object-server" "reclaim_age" ONE_WEEK;
                idbe_indexDBs := indexDBs |}, None)
         end, snd scanned)
    end.
Proof.
  intros HH HR Hd Hs devicespath dbspath HO read closed bw5.
  unfold indexDBEngineConstructor. run_B. rewrite HH. run_B. rewrite HR. run_B.
  rewrite (policy_number_ok _ 0 dpp Errorf_db_part_power Hd).
  rewrite (policy_number_ok _ 64 sd Errorf_subdirs Hs).
  run_B. fold devicespath dbspath. rewrite HO. run_B.
  subst bw5 closed read.
  destruct (dir_Readdirnames d (-1) s3) as [[dirs rerr] s4]. run_B.
  destruct (dir_Close d s4) as [xerr s5]. run_B.
  rewrite <- !app_assoc. cbn [app].
  destruct rerr as [e|]; [reflexivity|]. cbv zeta.
  destruct (scanDevices _ _ _ _ _ _ _ _ _) as [[m|e] bw6]; reflexivity.
Qed.

(** A [db_part_power] or a [subdirs] that is set and is not a base-10
    64-bit integer stops the constructor with its own error, before the
    devices directory is opened. *)
Theorem constructor_refuses_bad_numbers (config : Config) (policy : Policy)
    (bw : BWorld) (pre suf : string) (s1 s2 : Store) (ringg : Ring) :
  conf_GetHashPrefixAndSuffix (bstore bw) = ((pre, suf, None), s1) ->
  ring_GetRing "object" pre suf (policy_Index policy) s1 = (inl ringg, s2) ->
  let dppText := Go.index (policy_Config policy) "db_part_power" in
  let sdText := Go.index (policy_Config policy) "subdirs" in
  let stopped := {| bstore := s2;
                    bcalls := bcalls bw
                              ++ [BHashPrefixAndSuffix;
                                  BGetRing "object" pre suf (policy_Index policy)] |} in
  (dppText <> EmptyString -> Spec.base10Int64 dppText = None ->
   exists cause,
     indexDBEngineConstructor config policy bw
     = ((None, Some (Errorf_db_part_power dppText cause)), stopped))
  /\ (forall dpp,
      (dppText = EmptyString /\ dpp = 0) \/ Spec.base10Int64 dppText = Some dpp ->
      sdText <> EmptyString -> Spec.base10Int64 sdText = None ->
      exists cause,
        indexDBEngineConstructor config policy bw
        = ((None, Some (Errorf_subdirs sdText cause)), stopped)).
Proof.
  intros HH HR dppText sdText stopped. split.
  - intros Hne Hbad.
    destruct (policy_number_bad dppText 0 Errorf_db_part_power Hne Hbad) as (cause & E).
    exists cause. unfold indexDBEngineConstructor. run_B. rewrite HH. run_B.
    rewrite HR. run_B. fold dppText. rewrite E. run_B.
    rewrite <- !app_assoc. reflexivity.
  - intros dpp Hd Hne Hbad.
    destruct (policy_number_bad sdText 64 Errorf_subdirs Hne Hbad) as (cause & E).
    exists cause. unfold indexDBEngineConstructor. run_B. rewrite HH. run_B.
    rewrite HR. run_B. fold dppText sdText.
    rewrite (policy_number_ok dppText 0 dpp Errorf_db_part_power Hd), E. run_B.
    rewrite <- !app_assoc. reflexivity.
Qed.

(** The devices directory is closed as soon as its names were read, also
    when reading them failed, in which case the error is returned; what
    follows the close is the loop's [os.Stat] and [NewIndexDB] calls and
    nothing else. *)
Theorem constructor_closes_directory (config : Config) (policy : Policy)
    (bw : BWorld) (pre suf : string) (s1 s2 s3 : Store) (ringg : Ring)
    (dpp sd : Z) (d : Dir) :
  conf_GetHashPrefixAndSuffix (bstore bw) = ((pre, suf, None), s1) ->
  ring_GetRing "object" pre suf (policy_Index policy) s1 = (inl ringg, s2) ->
  (Go.index (policy_Config policy) "db_part_power" = EmptyString /\ dpp = 0)
  \/ Spec.base10Int64 (Go.index (policy_Config policy) "db_part_power") = Some dpp ->
  (Go.index (policy_Config policy) "subdirs" = EmptyString /\ sd = 64)
  \/ Spec.base10Int64 (Go.index (policy_Config policy) "subdirs") = Some sd ->
  let devicespath := config_GetDefault config "app:object-server" "devices" "/srv/node" in
  dir_Open devicespath s2 = (inl d, s3) ->
  let first := [BHashPrefixAndSuffix;
                BGetRing "object" pre suf (policy_Index policy);
                BOpen devicespath; BReaddirnames d (-1); BClose d] in
  (forall e, snd (fst (dir_Readdirnames d (-1) s3)) = Some e ->
     fst (indexDBEngineConstructor config policy bw) = (None, Some (passed e))
     /\ bcalls (snd (indexDBEngineConstructor config policy bw)) = bcalls bw ++ first)
  /\ exists rest,
       bcalls (snd (indexDBEngineConstructor config policy bw)) = bcalls bw ++ first ++ rest
       /\ forallb scanCall rest = true.
Proof.
  intros HH HR Hd Hs devicespath HO first.
  rewrite (constructor_run config policy bw pre suf s1 s2 s3 ringg dpp sd d
             HH HR Hd Hs HO).
  fold devicespath. split.
  - intros e ->. split; reflexivity.
  - destruct (snd (fst (dir_Readdirnames d (-1) s3))) as [e|].
    + exists []. cbn [snd bcalls]. rewrite app_nil_r. split; reflexivity.
    + cbv zeta. cbn [snd].
      match goal with |- context [scanDevices ?p ?dp ?db ?r ?a ?b ?ds ?m ?w] =>
        destruct (scanDevices_spec p dp db r a b ds m w) as (made & HC & HS & _) end.
      exists made. rewrite HC. cbn [bcalls]. rewrite <- app_assoc.
      split; [reflexivity|exact HS].
Qed.

(** An engine that the constructor returns: every [NewIndexDB] was given
    the bit length of the ring's partition count as the ring partition
    power, and the policy's [db_part_power] and [subdirs], or 0 and 64
    when they are not set; with no separate [dbs] path the database path
    is the file path; the devices of the engine are among the names read
    from the devices directory; and the reclaim age defaults to a week. *)
Theorem constructor_engine (config : Config) (policy : Policy)
    (bw : BWorld) (pre suf : string) (s1 s2 s3 : Store) (ringg : Ring)
    (dpp sd : Z) (d : Dir) (engine : indexDBEngine) :
  conf_GetHashPrefixAndSuffix (bstore bw) = ((pre, suf, None), s1) ->
  ring_GetRing "object" pre suf (policy_Index policy) s1 = (inl ringg, s2) ->
  (Go.index (policy_Config policy) "db_part_power" = EmptyString /\ dpp = 0)
  \/ Spec.base10Int64 (Go.index (policy_Config policy) "db_part_power") = Some dpp ->
  (Go.index (policy_Config policy) "subdirs" = EmptyString /\ sd = 64)
  \/ Spec.base10Int64 (Go.index (policy_Config policy) "subdirs") = Some sd ->
  let devicespath := config_GetDefault config "app:object-server" "devices" "/srv/node" in
  let dbspath := config_GetDefault config "app:object-server" "dbs" EmptyString in
  dir_Open devicespath s2 = (inl d, s3) ->
  fst (indexDBEngineConstructor config policy bw) = (Some engine, None) ->
  dom (idbe_indexDBs engine) ⊆ list_to_set (fst (fst (dir_Readdirnames d (-1) s3)))
  /\ idbe_devicespath engine = devicespath
  /\ idbe_hashPathPrefix engine = pre
  /\ idbe_hashPathSuffix engine = suf
  /\ idbe_fallocateReserve engine
     = config_GetInt config "app:object-server" "fallocate_reserve" 0
  /\ idbe_reclaimAge engine
     = config_GetInt config "app:object-server" "reclaim_age" ONE_WEEK
  /\ exists rest,
       bcalls (snd (indexDBEngineConstructor config policy bw))
       = (bcalls bw
          ++ [BHashPrefixAndSuffix;
              BGetRing "object" pre suf (policy_Index policy);
              BOpen devicespath; BReaddirnames d (-1); BClose d])
         ++ rest
       /\ Forall (configured (GoBits.bits_Len64 (PartitionCount ringg)) dpp sd
                             (negb (String.eqb dbspath EmptyString)))
                 rest.
Proof.
  intros HH HR Hd Hs devicespath dbspath HO.
  rewrite (constructor_run config policy bw pre suf s1 s2 s3 ringg dpp sd d
             HH HR Hd Hs HO).
  fold devicespath dbspath.
  destruct (snd (fst (dir_Readdirnames d (-1) s3))) as [e|]; [discriminate|].
  cbv zeta. cbn [fst snd].
  match goal with |- context [scanDevices ?p ?dp ?db ?r ?a ?b ?ds ?m ?w] =>
    destruct (scanDevices_spec p dp db r a b ds m w) as (made & HC & _ & HF & HD);
    destruct (scanDevices p dp db r a b ds m w) as [[m1|e] bw6] end;
    [|discriminate].
  intros [= <-]. cbn [idbe_indexDBs idbe_devicespath idbe_hashPathPrefix
                      idbe_hashPathSuffix idbe_fallocateReserve idbe_reclaimAge].
  split.
  { intros x Hx. apply (HD m1 eq_refl) in Hx. rewrite dom_empty in Hx.
    apply elem_of_union in Hx as [Hx|Hx]; [|exact Hx].
    apply elem_of_empty in Hx. contradiction. }
  do 5 (split; [reflexivity|]).
  exists made. cbn [snd bcalls] in *. split; [exact HC|exact HF].
Qed.







End ConstructorFacts.

(** ** The further theorems at work *)

Module StrictScenes.
Import Demo DemoStrict.
#[local] Existing Instance strict | 0.

Lemma commit_forwards_parsed_time_witness :
  atomicFileWriter
    (fst (fst (Commit writing
                      (Some {[ "X-Timestamp" := "0" ]}) world0))) = None
  /\ snd (fst (Commit writing
                      (Some {[ "X-Timestamp" := "0" ]}) world0))
     = Some (foreign "stale").
Proof.
  destruct (commit_forwards_parsed_time writing
              (Some {[ "X-Timestamp" := "0" ]}) false world0 "0" 0 []
              (Some (foreign "stale")) (store world0)
              ltac:(reflexivity) ltac:(reflexivity) ltac:(reflexivity)
              ltac:(reflexivity) ltac:(reflexivity)) as (_ & H1 & H2).
  split; [exact H1|exact H2].
Defined.

Lemma commit_stops_before_the_database_witness :
  Commit writing (Some {[ "X-Timestamp" := "soon" ]}) world0
  = ((writing, Some (foreign "bad timestamp")), world0)
  /\ Commit handle (Some {[ "unprintable" := "x" ]}) world0
     = ((handle, Some (foreign "unsupported value")), world0)
  /\ Delete handle (Some {[ "X-Timestamp" := "5"; "unprintable" := "x" ]}) world0
     = ((handle, Some (foreign "unsupported value")), world0).
Proof.
  split; [|split].
  - destruct (commit_stops_before_the_database writing
                (Some {[ "X-Timestamp" := "soon" ]}) false world0
                (foreign "bad timestamp")) as (H & _ & _).
    apply H; [reflexivity|]. exists "soon"%string, 0. split; reflexivity.
  - destruct (commit_stops_before_the_database handle
                (Some {[ "unprintable" := "x" ]}) false world0
                (foreign "unsupported value")) as (_ & H & _).
    apply H; [reflexivity|]. exists []. reflexivity.
  - destruct (commit_stops_before_the_database handle
                (Some {[ "X-Timestamp" := "5"; "unprintable" := "x" ]}) true world0
                (foreign "unsupported value")) as (_ & _ & H).
    apply (H "5"%string 5); [reflexivity|reflexivity|]. exists []. reflexivity.
Defined.

Lemma Commit_after_failed_SetData_witness :
  snd (fst (SetData handle (-1) world0)) = (None, Some (foreign "negative size"))
  /\ calls (snd (Commit (fst (fst (SetData handle (-1) world0))) None
                        (snd (SetData handle (-1) world0))))
     = [CTempFile db theHash 0 Go.MaxInt64 (-1) None;
        CCommit db None theHash 0 0 false [] []].
Proof.
  destruct (Commit_after_failed_SetData handle (-1) world0 (foreign "negative size")
              (store world0) None [] ltac:(reflexivity) ltac:(reflexivity)
              ltac:(reflexivity)) as (H1 & _ & H3).
  split; [exact H1|exact H3].
Defined.

Lemma New_fakelist_refusals_witness :
  fst (@New strict engine (Some {[ "device" := "sda"; "obj" := "fakelist";
                                   "obj-hash" := "abc" ]}) true tt world0)
  = Returns (None, Some (Errorf_hash_length "abc" 3))
  /\ fst (@New strict engine (Some {[ "device" := "sda"; "obj" := "fakelist";
                                      "obj-hash" := zeroHash ]}) true tt world0)
     = Returns (None, Some (foreign "no such partition")).
Proof.
  split.
  - destruct (@New_fakelist_refusals strict engine
                (Some {[ "device" := "sda"; "obj" := "fakelist"; "obj-hash" := "abc" ]})
                true tt world0 db) as [H _];
      [vm_compute; reflexivity | vm_compute; reflexivity |].
    rewrite H; [reflexivity|]. vm_compute. discriminate.
  - destruct (@New_fakelist_refusals strict engine
                (Some {[ "device" := "sda"; "obj" := "fakelist"; "obj-hash" := zeroHash ]})
                true tt world0 db) as [_ H];
      [vm_compute; reflexivity | vm_compute; reflexivity |].
    rewrite (H 0 (foreign "no such partition"));
      [reflexivity | vm_compute; reflexivity | vm_compute; reflexivity].
Defined.

End StrictScenes.

Module MoreScenes.
Import Demo DemoFiles DemoBoot.

Lemma loaded_handle_is_frozen_witness :
  loaded (fst (run [OpSetData 3; OpExists; OpCommit None] stored emptyWorld)) = true
  /\ path (fst (run [OpSetData 3; OpExists; OpCommit None] stored emptyWorld))
     = path stored
  /\ snd (fst (Metadata
                 (fst (run ([OpSetData 3] ++ [OpCommit (Some ∅)]) stored emptyWorld))
                 (snd (run ([OpSetData 3] ++ [OpCommit (Some ∅)]) stored emptyWorld))))
     = None.
Proof.
  destruct (loaded_handle_is_frozen [OpSetData 3; OpExists; OpCommit None]
              stored emptyWorld) as (H1 & _ & _ & _ & H5 & _); [reflexivity|].
  destruct (loaded_handle_is_frozen [OpSetData 3] stored emptyWorld)
    as (_ & _ & _ & _ & _ & _ & H7); [reflexivity|].
  split; [exact H1|]. split; [exact H5|]. exact (H7 (Some ∅)).
Defined.

Lemma close_releases_every_writer_witness :
  atomicFileWriter
    (fst (run ([OpSetData 3; OpSetData 4] ++ [OpClose]) fresh emptyWorld)) = None.
Proof.
  destruct (close_releases_every_writer [OpSetData 3; OpSetData 4] fresh emptyWorld)
    as [H _]; [reflexivity|]. exact H.
Defined.

Lemma Exists_only_if_decoded_witness :
  snd (fst (Exists fresh goodWorld)) = true
  /\ (snd (fst (Exists fresh brokenWorld)) = true -> False).
Proof.
  split.
  - destruct (Exists_only_if_decoded fresh goodWorld 7 false [] (list_byte_of_string "42")
                "/srv/node/sda/objects/y" None None (store goodWorld)
                (Some {[ "Content-Length" := "42" ]})) as [[_ H] _];
      [reflexivity | vm_compute; reflexivity | vm_compute; reflexivity |].
    apply H. repeat split.
  - destruct (Exists_only_if_decoded fresh brokenWorld 7 true [] []
                "/srv/node/sda/objects/x" None
                (Some (foreign "unexpected end of JSON input"))
                (store brokenWorld) (Some ∅)) as [[H _] _];
      [reflexivity | vm_compute; reflexivity | vm_compute; reflexivity |].
    intros E. destruct (H E) as (_ & Hj & _). discriminate Hj.
Defined.

Lemma New_ordinary_is_lazy_witness :
  exists idbo,
    @New externals engine
         (Some {[ "device" := "sda"; "obj" := "o"; "obj-hash" := "Zz" ]})
         false tt emptyWorld
    = (Returns (Some idbo, None), emptyWorld)
    /\ hash idbo = "Zz"%string /\ loaded idbo = false.
Proof.
  destruct (@New_ordinary_is_lazy externals engine
              (Some {[ "device" := "sda"; "obj" := "o"; "obj-hash" := "Zz" ]})
              false tt emptyWorld db)
    as (idbo & HN & _ & Hh & Hl & _);
    [vm_compute; reflexivity | vm_compute; reflexivity |].
  exists idbo. split; [exact HN|]. split; [rewrite Hh; vm_compute; reflexivity|exact Hl].
Defined.

Lemma Copy_synthetic_reads_buffer_witness :
  snd (fst (Copy synthetic [sink 1] (start emptyWorld))) = (0, None)
  /\ fcalls (snd (Copy synthetic [sink 1] (start emptyWorld)))
     = [FIoCopy (sink 1) (FromBuffer [])].
Proof.
  rewrite (Copy_synthetic_reads_buffer synthetic [sink 1] (start emptyWorld)
             eq_refl eq_refl).
  split; reflexivity.
Defined.

Lemma Copy_file_result_witness :
  snd (fst (Copy stored [sink 1; sink 2] (start emptyWorld))) = (3, None)
  /\ fcalls (snd (Copy stored [sink 1; sink 2] (start emptyWorld)))
     = [FOpen "/srv/node/sda/objects/y" (inl (file "/srv/node/sda/objects/y"));
        FCommonCopy (FromFile (file "/srv/node/sda/objects/y")) [sink 1; sink 2];
        FClose (file "/srv/node/sda/objects/y")].
Proof.
  rewrite (Copy_file_result stored [sink 1; sink 2] (start emptyWorld)
             (file "/srv/node/sda/objects/y") (store emptyWorld) (store emptyWorld)
             (store emptyWorld) 3 None None eq_refl eq_refl eq_refl eq_refl eq_refl).
  split; reflexivity.
Defined.

Lemma Copy_early_failure_witness :
  snd (fst (Copy fresh [sink 1] (start emptyWorld))) = (0, Some (foreign "no such object"))
  /\ fcalls (snd (Copy fresh [sink 1] (start emptyWorld))) = []
  /\ snd (fst (Copy pathless [sink 1] (start emptyWorld)))
     = (0, Some (foreign "no such file"))
  /\ loaded fresh = false
  /\ snd (fst (Copy fresh [sink 1] (start lostWorld))) = (0, Some (foreign "no such file"))
  /\ loaded (fst (fst (Copy fresh [sink 1] (start lostWorld)))) = true
  /\ calls (world (snd (Copy fresh [sink 1] (start lostWorld)))) = [CLookup db theHash 0]
  /\ fcalls (snd (Copy fresh [sink 1] (start lostWorld)))
     = [FOpen EmptyString (inr (foreign "no such file"))].
Proof.
  destruct (Copy_early_failure fresh [sink 1] (start emptyWorld) (foreign "no such object"))
    as [H1 _].
  destruct (Copy_early_failure pathless [sink 1] (start emptyWorld) (foreign "no such file"))
    as [_ H2].
  destruct (Copy_early_failure fresh [sink 1] (start lostWorld) (foreign "no such file"))
    as [_ H3].
  rewrite H1 by reflexivity.
  rewrite (H2 (store emptyWorld)) by reflexivity.
  rewrite (H3 (store lostWorld)) by reflexivity.
  repeat split.
Defined.

Lemma CopyRange_file_witness :
  snd (fst (CopyRange stored (sink 1) (-1) 5 (start emptyWorld)))
  = (0, Some (foreign "invalid argument"))
  /\ fcalls (snd (CopyRange stored (sink 1) 2 5 (start emptyWorld)))
     = [FOpen "/srv/node/sda/objects/y" (inl (file "/srv/node/sda/objects/y"));
        FSeek (file "/srv/node/sda/objects/y") 2 0;
        FCopyN (file "/srv/node/sda/objects/y") 3 (sink 1);
        FClose (file "/srv/node/sda/objects/y")].
Proof.
  destruct (CopyRange_file stored (sink 1) (-1) 5 (start emptyWorld)
              (file "/srv/node/sda/objects/y") (store emptyWorld) (store emptyWorld)
              0 (Some (foreign "invalid argument")) eq_refl eq_refl eq_refl) as [H1 _].
  destruct (CopyRange_file stored (sink 1) 2 5 (start emptyWorld)
              (file "/srv/node/sda/objects/y") (store emptyWorld) (store emptyWorld)
              2 None eq_refl eq_refl eq_refl) as [_ H2].
  rewrite (H1 (foreign "invalid argument") eq_refl), (H2 eq_refl).
  split; reflexivity.
Defined.

Lemma fakelist_handle_reads_witness :
  exists idbo w1,
    @New externals engine fakelistVars true tt emptyWorld = (Returns (Some idbo, None), w1)
    /\ Exists idbo w1 = ((idbo, true), w1)
    /\ snd (fst (ContentLength idbo w1)) = 4.
Proof.
  pose proof (@New_fakelist_run externals engine fakelistVars true tt emptyWorld db
                1500000000 (store emptyWorld) (store emptyWorld) [] None
                eq_refl eq_refl eq_refl) as E.
  cbv zeta in E.
  assert (Hp : ringPartOf db (Go.strings_ToLower unicode_ToLower
                 (ObjHash fakelistVars (idbe_hashPathPrefix engine)
                                       (idbe_hashPathSuffix engine)))
               = Returns (inl 848)) by (vm_compute; reflexivity).
  rewrite Hp in E.
  change (snd (fst (idb_List db 848 (store emptyWorld)))) with (@None error) in E.
  cbv iota in E.
  eexists _, _. split; [exact E|].
  match type of E with _ = (Returns (Some ?i, None), ?w) =>
    destruct (@fakelist_handle_reads externals engine fakelistVars true tt emptyWorld
                w i eq_refl E) as (H1 & H2 & _ & _)
  end.
  - vm_compute. discriminate.
  - split; [exact H1|]. rewrite H2. reflexivity.
Defined.

Lemma constructor_refuses_bad_numbers_witness :
  (exists cause,
     fst (@indexDBEngineConstructor externals boot EmptyString badPolicy boot0)
     = (None, Some (Errorf_db_part_power "1_0" cause)))
  /\ (exists cause,
       fst (@indexDBEngineConstructor externals boot EmptyString badSubdirs boot0)
       = (None, Some (Errorf_subdirs "many" cause))).
Proof.
  split.
  - destruct (@constructor_refuses_bad_numbers externals boot EmptyString badPolicy boot0
                "pre" "suf" (store emptyWorld) (store emptyWorld) 1024 eq_refl eq_refl)
      as [H _].
    destruct H as (cause & E); [vm_compute; discriminate | vm_compute; reflexivity |].
    exists cause. rewrite E. reflexivity.
  - destruct (@constructor_refuses_bad_numbers externals boot EmptyString badSubdirs boot0
                "pre" "suf" (store emptyWorld) (store emptyWorld) 1024 eq_refl eq_refl)
      as [_ H].
    destruct (H 0) as (cause & E);
      [left; split; reflexivity | vm_compute; discriminate | vm_compute; reflexivity |].
    exists cause. rewrite E. reflexivity.
Defined.

Lemma constructor_closes_directory_witness :
  fst (@indexDBEngineConstructor externals boot "/mnt" noPolicy boot0)
  = (None, Some (passed (foreign "not a directory")))
  /\ bcalls (snd (@indexDBEngineConstructor externals boot "/mnt" noPolicy boot0))
     = [BHashPrefixAndSuffix; BGetRing "object" "pre" "suf" 0; BOpen "/mnt";
        BReaddirnames ("/mnt"%string : @Dir externals boot) (-1);
        BClose ("/mnt"%string : @Dir externals boot)].
Proof.
  destruct (@constructor_closes_directory externals boot "/mnt" noPolicy boot0
              "pre" "suf" (store emptyWorld) (store emptyWorld) (store emptyWorld)
              1024 0 64 "/mnt"%string eq_refl eq_refl
              (or_introl (conj eq_refl eq_refl)) (or_introl (conj eq_refl eq_refl))
              eq_refl) as [H _].
  destruct (H (foreign "not a directory") eq_refl) as [H1 H2].
  split; [exact H1|]. rewrite H2. reflexivity.
Defined.

Lemma constructor_engine_witness :
  dom (idbe_indexDBs built) ⊆ list_to_set ["sda"%string; "README"%string]
  /\ idbe_reclaimAge built = 604800.
Proof.
  destruct (@constructor_engine externals boot EmptyString noPolicy boot0
              "pre" "suf" (store emptyWorld) (store emptyWorld) (store emptyWorld)
              1024 0 64 "/srv/node"%string built eq_refl eq_refl
              (or_introl (conj eq_refl eq_refl)) (or_introl (conj eq_refl eq_refl))
              eq_refl) as (H1 & _ & _ & _ & _ & H6 & _).
  - vm_compute. reflexivity.
  - split; [exact H1|exact H6].
Defined.


End MoreScenes.
